(** * Audio segmentation core: [app/utils/audacity_handler.py]

    A shallow embedding of [AudioProcessor] (convert_to_wav, detect_silence,
    parse_silence_points, split_audio, process_audio) and the properties of
    its specification.

    Modelling conventions.
    - A Python [str] is a Stdlib [string]; its characters are 8-bit, so the
      class [\d] of the regular expressions is the ASCII digits.
    - A Python [float] is an IEEE 754 binary64 number, [spec_float] with
      precision 53 and maximal exponent 1024, with the Standard Library's
      correctly rounded operations.
    - The file system is a finite map from directory paths to their listing;
      the external tool ([ffmpeg]) is a function from its argument vector and
      the file system to an outcome and a new file system.
    - The identifiers [str(uuid.uuid4())[:8]] are explicit arguments.
    - Exceptions are values of the type [exn]; a computation returns
      [exn + A] together with the new state. The state holds the file
      system, the argument vectors of the tool runs and the records sent to
      the logger; the [print] calls of [convert_to_wav] are left out.
    - [str] of a float and of a [CalledProcessError] belong to the Python
      library; the processor takes them as the functions [str_float] and
      [cpe_str]. *)

From Stdlib Require Import ZArith String Ascii List Lia Bool.
From Stdlib Require Import Floats.SpecFloat DecimalString DecimalPos.
From stdpp Require Import base gmap strings.
Import ListNotations.
Open Scope string_scope.

(** ** Python strings *)

Module PyStr.

(** [s.startswith(p)] *)
Definition startswith (s p : string) : bool := String.prefix p s.

(** [s.endswith(suf)] *)
Definition endswith (s suf : string) : bool :=
  let n := String.length s in
  let k := String.length suf in
  if (k <=? n)%nat then String.eqb (substring (n - k) k s) suf else false.

(** [sub in s] *)
Fixpoint contains (s sub : string) : bool :=
  String.prefix sub s ||
  match s with
  | EmptyString => false
  | String _ r => contains r sub
  end.

(** The characters [0] .. [9]. *)
Definition is_digit (c : ascii) : bool :=
  let n := nat_of_ascii c in ((48 <=? n) && (n <=? 57))%nat.

(** The longest prefix of digits, and the rest. *)
Fixpoint span_digits (s : string) : string * string :=
  match s with
  | String c r =>
      if is_digit c
      then let '(d, t) := span_digits r in (String c d, t)
      else (EmptyString, s)
  | EmptyString => (EmptyString, EmptyString)
  end.

(** [s[len(p):]] when [s] starts with [p]. *)
Fixpoint strip_prefix (p s : string) : option string :=
  match p, s with
  | EmptyString, _ => Some s
  | String a p', String b s' =>
      if Ascii.eqb a b then strip_prefix p' s' else None
  | String _ _, EmptyString => None
  end.

Fixpoint all_digits (s : string) : bool :=
  match s with
  | EmptyString => true
  | String c r => is_digit c && all_digits r
  end.

(** [s] is empty or starts with a character that is no digit. *)
Definition stops (s : string) : Prop :=
  match s with
  | EmptyString => True
  | String c _ => is_digit c = false
  end.

(** The shape [\d+\.\d+]. *)
Definition decimal (g : string) : Prop :=
  exists d1 d2 : string,
    g = d1 ++ "." ++ d2 /\
    all_digits d1 = true /\ d1 <> EmptyString /\
    all_digits d2 = true /\ d2 <> EmptyString.

Definition digit_value (c : ascii) : Z := Z.of_nat (nat_of_ascii c) - 48.

(** The number a string of digits denotes, most significant digit first. *)
Fixpoint int_of_digits_acc (acc : Z) (s : string) : Z :=
  match s with
  | EmptyString => acc
  | String c r => int_of_digits_acc (10 * acc + digit_value c) r
  end.

(** [int(s)] for a string of digits. *)
Definition int_of_digits (s : string) : Z := int_of_digits_acc 0 s.

(** [str(n)] for an [int]. *)
Definition str_int (n : Z) : string := NilZero.string_of_int (Z.to_int n).

Fixpoint zeros (n : nat) : string :=
  match n with
  | O => EmptyString
  | S k => String "0" (zeros k)
  end.

(** [s.zfill(width)] for a string with no sign. *)
Definition zfill (width : nat) (s : string) : string :=
  zeros (width - String.length s) ++ s.

(** The format [{n:03d}] for [0 <= n]. *)
Definition format_03d (n : Z) : string := zfill 3 (str_int n).

Definition is_slash (c : ascii) : bool := Ascii.eqb c "/".

Fixpoint has_slash (s : string) : bool :=
  match s with
  | EmptyString => false
  | String c r => is_slash c || has_slash r
  end.

(** [p[:p.rfind('/') + 1]] *)
Fixpoint upto_last_slash (p : string) : string :=
  match p with
  | EmptyString => EmptyString
  | String c r =>
      if is_slash c || has_slash r then String c (upto_last_slash r)
      else EmptyString
  end.

(** [s.rstrip('/')] *)
Fixpoint rstrip_slash (s : string) : string :=
  match s with
  | EmptyString => EmptyString
  | String c r =>
      match rstrip_slash r with
      | EmptyString => if is_slash c then EmptyString else String c EmptyString
      | r' => String c r'
      end
  end.

(** [posixpath.dirname]: the head up to the last slash, without its
    trailing slashes unless it consists of slashes only. *)
Definition dirname (p : string) : string :=
  let head := upto_last_slash p in
  match rstrip_slash head with
  | EmptyString => head
  | h => h
  end.

(** [posixpath.basename]: [p[p.rfind('/') + 1:]] *)
Definition basename (p : string) : string :=
  let i := String.length (upto_last_slash p) in
  substring i (String.length p - i) p.

(** [posixpath.join(a, b)] *)
Definition join (a b : string) : string :=
  if startswith b "/" then b
  else match a with
       | EmptyString => b
       | _ => if endswith a "/" then a ++ b else a ++ "/" ++ b
       end.

End PyStr.

(** ** Python floats *)

Module PyFloat.

Definition prec : Z := 53.
Definition emax : Z := 1024.

Definition float : Type := spec_float.

Definition zero : float := S754_zero false.

(** The conversion of an [int] operand of a float operation. *)
Definition of_int (z : Z) : float := binary_normalize prec emax z 0 false.

(** The float nearest to [n / d]. *)
Definition of_ratio (n d : positive) : float :=
  let '(q, e, l) := SFdiv_core_binary prec emax (Zpos n) 0 (Zpos d) 0 in
  binary_round_aux prec emax false q e l.

Definition add (x y : float) : float := SFadd prec emax x y.
Definition sub (x y : float) : float := SFsub prec emax x y.
Definition ltb (x y : float) : bool := SFltb x y.
Definition leb (x y : float) : bool := SFleb x y.

(** [0 <= x]: [x] is no NaN, and is a zero or carries no minus sign. *)
Definition nonneg (x : float) : Prop := leb zero x = true.

(** Splits [ddd.ddd] at its point: the digits before and after. *)
Definition split_decimal (s : string) : option (string * string) :=
  let '(ip, r) := PyStr.span_digits s in
  match ip, r with
  | String _ _, String "." r' =>
      let '(fp, t) := PyStr.span_digits r' in
      match fp, t with
      | String _ _, EmptyString => Some (ip, fp)
      | _, _ => None
      end
  | _, _ => None
  end.

(** [float(s)] for a decimal [s] of the shape [\d+\.\d+]: the float
    nearest to the decimal; [None] stands for [ValueError]. *)
Definition of_string (s : string) : option float :=
  match split_decimal s with
  | Some (ip, fp) =>
      match PyStr.int_of_digits (ip ++ fp) with
      | Z0 => Some zero
      | Zpos n => Some (of_ratio n (Pos.pow 10 (Pos.of_nat (String.length fp))))
      | Zneg _ => None
      end
  | None => None
  end.

End PyFloat.

(** A Python number: the [int] or the [float] that [max(0, x)] returns. *)
Inductive pynum : Type :=
| PyInt (z : Z)
| PyFloat (f : PyFloat.float).

(** ** Regular expressions of the handler *)

Module Re.

(** One attempt at matching [<label>(\d+\.\d+)] at the head of [s]: the
    group and the length of the match. Each [\d+] is greedy, and giving
    back a digit never helps, the next pattern character not being a
    digit. *)
Definition match_timestamp (label s : string) : option (string * nat) :=
  match PyStr.strip_prefix label s with
  | Some r =>
      let '(d1, r1) := PyStr.span_digits r in
      match d1, r1 with
      | String _ _, String "." r2 =>
          let '(d2, _) := PyStr.span_digits r2 in
          match d2 with
          | String _ _ =>
              let g := d1 ++ "." ++ d2 in
              Some (g, (String.length label + String.length g)%nat)
          | EmptyString => None
          end
      | _, _ => None
      end
  | None => None
  end.

(** [re.findall]: the groups of the matches, leftmost first, without
    overlap. [skip] counts the characters of the last match still to pass. *)
Fixpoint scan (m : string -> option (string * nat)) (skip : nat) (s : string)
  : list string :=
  match s with
  | EmptyString => []
  | String _ r =>
      match skip with
      | S k => scan m k r
      | O =>
          match m s with
          | Some (g, len) => g :: scan m (len - 1) r
          | None => scan m 0%nat r
          end
      end
  end.

Definition findall (m : string -> option (string * nat)) (s : string)
  : list string := scan m 0%nat s.

(** [re.match(r'(\d+)_segments', s)]: the group of the match. *)
Definition match_numbered_segments (s : string) : option string :=
  let '(d, r) := PyStr.span_digits s in
  match d with
  | String _ _ => if PyStr.startswith r "_segments" then Some d else None
  | EmptyString => None
  end.

End Re.

(** ** Exceptions, the file system and the state *)

(** The exception classes the handler meets. [CalledProcessError] carries
    [returncode], [cmd] and [stderr] ([None] when the stream was not
    captured); [PyException] is a plain [Exception(msg)]. *)
Inductive exn : Type :=
| CalledProcessError (returncode : Z) (cmd : list string) (stderr : option string)
| OSError (strerror : string)
| ValueError (msg : string)
| PyException (msg : string).

(** A directory path is mapped to its listing, in the order [os.listdir]
    gives it; a file is an entry of its parent's listing. Paths are taken
    literally. *)
Abbreviation filesystem := (gmap string (list string)).

Inductive level : Type := INFO | ERROR.

Record state : Type := mkState {
  fs : filesystem;
  calls : list (list string);      (* the argument vectors run so far *)
  log : list (level * string)      (* the records sent to [self.logger] *)
}.

(** What one run of the external tool does: it exits with a return code
    and the text of its two streams, or the process cannot be started. *)
Inductive outcome : Type :=
| Exited (returncode : Z) (stdout stderr : string)
| NotStarted (strerror : string).

(** The value of [subprocess.run]: the captured streams. *)
Record CompletedProcess : Type := mkCompleted {
  cp_stdout : option string;
  cp_stderr : option string
}.

(** A silence point, the dict [{'start': ..., 'end': ...}]. *)
Record point : Type := mkPoint {
  start : PyFloat.float;
  end_ : PyFloat.float
}.

(** Computations: a state transformer that returns a value or raises. *)
Definition M (A : Type) : Type := state -> (exn + A) * state.

Definition ret {A} (a : A) : M A := fun st => (inr a, st).
Definition raise {A} (e : exn) : M A := fun st => (inl e, st).

Definition bind {A B} (c : M A) (k : A -> M B) : M B :=
  fun st =>
    match c st with
    | (inr a, st') => k a st'
    | (inl e, st') => (inl e, st')
    end.

(** [try: c except ... as e: h e] *)
Definition try_except {A} (c : M A) (h : exn -> M A) : M A :=
  fun st =>
    match c st with
    | (inr a, st') => (inr a, st')
    | (inl e, st') => h e st'
    end.

Notation "x <- c ;; k" := (bind c (fun x => k))
  (at level 100, c at next level, right associativity).
Notation "c ;;; k" := (bind c (fun _ => k))
  (at level 100, right associativity).

Definition lift {A} (r : exn + A) : M A := fun st => (r, st).

Definition logger (l : level) (msg : string) : M unit :=
  fun st => (inr tt, mkState st.(fs) st.(calls) (st.(log) ++ [(l, msg)])%list).

Module Os.

Definition mem (name : string) (l : list string) : bool :=
  existsb (String.eqb name) l.

Definition isdir (f : filesystem) (p : string) : bool :=
  match f !! p with Some _ => true | None => false end.

(** [p] names an entry of its parent directory. *)
Definition isentry (f : filesystem) (p : string) : bool :=
  match f !! PyStr.dirname p with
  | Some l => mem (PyStr.basename p) l
  | None => false
  end.

(** [os.path.exists] *)
Definition exists_ (f : filesystem) (p : string) : bool :=
  isdir f p || isentry f p.

Definition enoent (p : string) : exn :=
  OSError ("[Errno 2] No such file or directory: '" ++ p ++ "'").
Definition eexist (p : string) : exn :=
  OSError ("[Errno 17] File exists: '" ++ p ++ "'").

(** [os.listdir] *)
Definition listdir (f : filesystem) (p : string) : exn + list string :=
  match f !! p with
  | Some l => inr l
  | None => inl (enoent p)
  end.

(** [os.mkdir]: the parent must be a directory and the name free. *)
Definition mkdir (f : filesystem) (p : string) : exn + filesystem :=
  if exists_ f p then inl (eexist p)
  else
    match f !! PyStr.dirname p with
    | Some l => inr (<[p := []]> (<[PyStr.dirname p := (l ++ [PyStr.basename p])%list]> f))
    | None => inl (enoent p)
    end.

(** [os.makedirs(name, exist_ok=True)]: the missing ancestors are made
    first; a failure of the last [mkdir] is ignored when [name] is a
    directory. The recursion is on the head of the path, which is
    shorter; [fuel] bounds it. *)
Fixpoint makedirs_fuel (fuel : nat) (f : filesystem) (name : string)
  : exn + filesystem :=
  match fuel with
  | O => inl (enoent name)
  | S k =>
      let head := PyStr.dirname name in
      let tail := PyStr.basename name in
      let parents :=
        match head, tail with
        | String _ _, String _ _ =>
            if exists_ f head then inr f
            else match makedirs_fuel k f head with
                 | inr f' => inr f'
                 | inl e => if isentry f head then inr f else inl e
                 end
        | _, _ => inr f
        end in
      match parents with
      | inl e => inl e
      | inr f' =>
          match mkdir f' name with
          | inr f'' => inr f''
          | inl e => if isdir f' name then inr f' else inl e
          end
      end
  end.

Definition makedirs (f : filesystem) (name : string) : exn + filesystem :=
  makedirs_fuel (S (String.length name)) f name.

End Os.

Definition os_listdir (p : string) : M (list string) :=
  fun st => (Os.listdir st.(fs) p, st).

Definition os_path_exists (p : string) : M bool :=
  fun st => (inr (Os.exists_ st.(fs) p), st).

Definition os_makedirs (p : string) : M unit :=
  fun st =>
    match Os.makedirs st.(fs) p with
    | inr f' => (inr tt, mkState f' st.(calls) st.(log))
    | inl e => (inl e, st)
    end.

(** ** The processor *)

(** [str(e)] of an exception; [cpe_str] is the text of a
    [CalledProcessError]. *)
Definition str_exn (cpe_str : Z -> list string -> string) (e : exn) : string :=
  match e with
  | CalledProcessError rc cmd _ => cpe_str rc cmd
  | OSError m => m
  | ValueError m => m
  | PyException m => m
  end.

(** [str(x)] of an optional text, as an f-string formats it. *)
Definition str_opt (o : option string) : string :=
  match o with
  | Some s => s
  | None => "None"
  end.

(** [max(existing_numbers, default=0)] *)
Definition max_default (l : list Z) (d : Z) : Z :=
  match l with
  | [] => d
  | x :: r => fold_left Z.max r x
  end.

(** [max(0, x)]: the first argument unless the second is greater. *)
Definition max0 (x : PyFloat.float) : pynum :=
  if PyFloat.ltb PyFloat.zero x then PyFloat x else PyInt 0.

Definition start_pattern : string -> option (string * nat) :=
  Re.match_timestamp "silence_start: ".
Definition end_pattern : string -> option (string * nat) :=
  Re.match_timestamp "silence_end: ".

(** The loop of [parse_silence_points] over [zip(start_matches,
    end_matches)]. *)
Fixpoint pair_points (l : list (string * string)) : exn + list point :=
  match l with
  | [] => inr []
  | (s, e) :: r =>
      match PyFloat.of_string s, PyFloat.of_string e with
      | Some x, Some y =>
          match pair_points r with
          | inr ps => inr (mkPoint x y :: ps)
          | inl err => inl err
          end
      | None, _ => inl (ValueError ("could not convert string to float: '" ++ s ++ "'"))
      | _, None => inl (ValueError ("could not convert string to float: '" ++ e ++ "'"))
      end
  end.

Definition parse_silence_points (silence_output : string) : exn + list point :=
  let start_matches := Re.findall start_pattern silence_output in
  let end_matches := Re.findall end_pattern silence_output in
  pair_points (combine start_matches end_matches).

(** The folder numbers [split_audio] reads from a listing. *)
Definition existing_folders (listing : list string) : list string :=
  List.filter (fun f => PyStr.startswith f "segments_") listing.

Definition existing_numbers (listing : list string) : list Z :=
  flat_map
    (fun folder =>
       match Re.match_numbered_segments folder with
       | Some g => [PyStr.int_of_digits g]
       | None => []
       end)
    (existing_folders listing).

Definition next_number (listing : list string) : Z :=
  max_default (existing_numbers listing) 0 + 1.

(** The name of the folder a run creates. *)
Definition folder_name (listing : list string) (unique_id : string) : string :=
  PyStr.zfill 2 (PyStr.str_int (next_number listing)) ++ "_segments_" ++ unique_id.

(** The window of a silence point: [max(0, start - 1)] and [end + 1]. *)
Definition window (p : point) : pynum * PyFloat.float :=
  (max0 (PyFloat.sub p.(start) (PyFloat.of_int 1)),
   PyFloat.add p.(end_) (PyFloat.of_int 1)).

Definition segment_name (i : nat) : string :=
  "segment_" ++ PyStr.format_03d (Z.of_nat i + 1) ++ ".wav".

Definition ffmpeg_path : string := "ffmpeg".

Section Processor.

(** The external tool. *)
Variable ffmpeg : list string -> filesystem -> outcome * filesystem.
(** [str(x)] of a float. *)
Variable str_float : PyFloat.float -> string.
(** [str(e)] of a [CalledProcessError], from [returncode] and [cmd]. *)
Variable cpe_str : Z -> list string -> string.

Definition str_pynum (x : pynum) : string :=
  match x with
  | PyInt z => PyStr.str_int z
  | PyFloat f => str_float f
  end.

(** [subprocess.run(cmd, check=True)], with [stdout=PIPE, stderr=PIPE,
    text=True] when [capture]. *)
Definition subprocess_run (capture : bool) (cmd : list string)
  : M CompletedProcess :=
  fun st =>
    let called := (st.(calls) ++ [cmd])%list in
    match ffmpeg cmd st.(fs) with
    | (NotStarted msg, _) => (inl (OSError msg), mkState st.(fs) called st.(log))
    | (Exited rc out err, f') =>
        let st' := mkState f' called st.(log) in
        let keep (s : string) := if capture then Some s else None in
        if (rc =? 0)%Z then (inr (mkCompleted (keep out) (keep err)), st')
        else (inl (CalledProcessError rc cmd (keep err)), st')
    end.

Definition convert_command (input_file output_path : string) : list string :=
  [ffmpeg_path; "-i"; input_file; "-acodec"; "pcm_s16le";
   "-ar"; "22050"; "-ac"; "1"; output_path].

Definition convert_to_wav (unique_id input_file : string) : M string :=
  try_except
    (let input_dir := PyStr.dirname input_file in
     let output_dir := PyStr.join input_dir "output" in
     os_makedirs output_dir ;;;
     let output_filename := "converted_" ++ unique_id ++ ".wav" in
     let output_path := PyStr.join output_dir output_filename in
     subprocess_run true (convert_command input_file output_path) ;;;
     created <- os_path_exists output_path ;;
     if negb created
     then raise (PyException "WAV conversion failed: Output file not created")
     else
       logger INFO ("Successfully converted to WAV: " ++ output_path) ;;;
       ret output_path)
    (fun e =>
       match e with
       | CalledProcessError _ _ stderr =>
           logger ERROR ("FFmpeg conversion error: " ++ str_opt stderr) ;;;
           raise (PyException ("Audio conversion failed: " ++ str_opt stderr))
       | _ =>
           logger ERROR ("Conversion error: " ++ str_exn cpe_str e) ;;;
           raise e
       end).

Definition silence_command (wav_file : string) : list string :=
  [ffmpeg_path; "-i"; wav_file; "-af"; "silencedetect=noise=-37dB:d=0.5";
   "-f"; "null"; "-"].

Definition detect_silence (wav_file : string) : M string :=
  try_except
    (process <- subprocess_run true (silence_command wav_file) ;;
     ret (str_opt process.(cp_stderr)))
    (fun e =>
       match e with
       | CalledProcessError _ _ stderr =>
           logger ERROR ("Silence detection error: " ++ str_opt stderr) ;;;
           raise (PyException ("Silence detection failed: " ++ str_opt stderr))
       | _ => raise e
       end).

(** The fixed-length command of the fallback. *)
Definition fixed_command (wav_file output_dir : string) : list string :=
  [ffmpeg_path; "-i"; wav_file; "-f"; "segment"; "-segment_time"; "10";
   "-c"; "copy"; PyStr.join output_dir "segment_%03d.wav"].

(** The command that extracts the segment of the [i]-th point ([i] from
    0, as [enumerate] counts). *)
Definition extract_command (wav_file output_dir : string) (i : nat) (p : point)
  : list string :=
  [ffmpeg_path; "-i"; wav_file;
   "-ss"; str_pynum (fst (window p));
   "-to"; str_float (snd (window p));
   "-c"; "copy"; PyStr.join output_dir (segment_name i)].

(** The loop over [enumerate(silence_points)], from index [i], with the
    list [segments] gathered so far. *)
Fixpoint extract_segments (wav_file output_dir : string) (i : nat)
  (points : list point) (segments : list string) : M (list string) :=
  match points with
  | [] => ret segments
  | p :: rest =>
      let output_segment := PyStr.join output_dir (segment_name i) in
      subprocess_run false (extract_command wav_file output_dir i p) ;;;
      created <- os_path_exists output_segment ;;
      extract_segments wav_file output_dir (S i) rest
        (if created then (segments ++ [output_segment])%list else segments)
  end.

(** [not silence_points]: [None] and the empty list are false values. *)
Definition falsy (silence_points : option (list point)) : bool :=
  match silence_points with
  | None | Some [] => true
  | Some (_ :: _) => false
  end.

Definition points_of (silence_points : option (list point)) : list point :=
  match silence_points with
  | Some l => l
  | None => []
  end.

Definition is_wav (f : string) : bool := PyStr.endswith f ".wav".

Definition split_audio (unique_id wav_file : string)
  (silence_points : option (list point)) : M (list string) :=
  try_except
    (let base_output_dir := PyStr.dirname wav_file in
     listing <- os_listdir base_output_dir ;;
     let output_dir :=
       PyStr.join base_output_dir (folder_name listing unique_id) in
     os_makedirs output_dir ;;;
     (if falsy silence_points
      then subprocess_run false (fixed_command wav_file output_dir) ;;; ret []
      else extract_segments wav_file output_dir 0 (points_of silence_points) []) ;;;
     produced <- os_listdir output_dir ;;
     ret (List.filter is_wav produced))
    (fun e =>
       match e with
       | CalledProcessError rc cmd _ =>
           logger ERROR ("Audio splitting error: " ++ cpe_str rc cmd) ;;;
           raise (PyException ("Failed to split audio: " ++ cpe_str rc cmd))
       | _ => raise e
       end).

Definition process_audio (id_wav id_dir input_file : string) : M (list string) :=
  try_except
    (wav_file <- convert_to_wav id_wav input_file ;;
     silence_output <- detect_silence wav_file ;;
     silence_points <- lift (parse_silence_points silence_output) ;;
     segments <- split_audio id_dir wav_file (Some silence_points) ;;
     logger INFO ("Generated " ++ PyStr.str_int (Z.of_nat (List.length segments))
                  ++ " audio segments") ;;;
     ret segments)
    (fun e =>
       logger ERROR ("Audio processing failed: " ++ str_exn cpe_str e) ;;;
       raise e).

End Processor.
(** The point a pair of groups is converted to. *)
Definition point_of (se : string * string) (p : point) : Prop :=
  PyFloat.of_string (fst se) = Some p.(start) /\
  PyFloat.of_string (snd se) = Some p.(end_).


(** The commands [split_audio] plans for the points from index [i] on. *)
Fixpoint planned_commands (str_float : PyFloat.float -> string)
  (wav_file output_dir : string) (i : nat) (points : list point)
  : list (list string) :=
  match points with
  | [] => []
  | p :: rest =>
      extract_command str_float wav_file output_dir i p
      :: planned_commands str_float wav_file output_dir (S i) rest
  end.

(** The state after a tool run that changed the file system to [f]. *)
Definition ran (st : state) (cmd : list string) (f : filesystem) : state :=
  mkState f (st.(calls) ++ [cmd])%list st.(log).

(** The state after one more log record. *)
Definition logged (st : state) (l : level) (msg : string) : state :=
  mkState st.(fs) st.(calls) (st.(log) ++ [(l, msg)])%list.

(** The directory a run of [split_audio] creates, from the listing of the
    asset's directory. *)
Definition output_dir_of (listing : list string) (unique_id wav_file : string)
  : string :=
  PyStr.join (PyStr.dirname wav_file) (folder_name listing unique_id).

(** The exceptions of the operating system. *)
Definition is_oserror (e : exn) : Prop :=
  match e with
  | OSError _ => True
  | _ => False
  end.

(** The path [convert_to_wav] writes to. *)
Definition converted_path (unique_id input_file : string) : string :=
  PyStr.join (PyStr.join (PyStr.dirname input_file) "output")
    ("converted_" ++ unique_id ++ ".wav").




(** ** Concrete inputs *)

Definition nl : string := String (ascii_of_nat 10) EmptyString.

Module NegativeOnset.

(** The detector's text for a file that starts in silence: the first
    onset is negative. *)
Definition text : string :=
  "[silencedetect @ 0x5581] silence_start: -0.010000" ++ nl ++
  "[silencedetect @ 0x5581] silence_end: 1.500000 | silence_duration: 1.510000" ++ nl ++
  "[silencedetect @ 0x5581] silence_start: 4.000000" ++ nl ++
  "[silencedetect @ 0x5581] silence_end: 6.000000 | silence_duration: 2.000000" ++ nl.

(** 4.0 and 1.5 *)
Definition four : PyFloat.float := S754_finite false 4503599627370496 (-50).
Definition one_and_a_half : PyFloat.float := S754_finite false 6755399441055744 (-52).

End NegativeOnset.

Module Scenario.

(** The detection text of the specification's scenario: one interval, then
    an onset with no resumption. *)
Definition text : string :=
  "silence_start: 1.000000" ++ nl ++
  "silence_end: 3.500000" ++ nl ++
  "silence_start: 10.000000".

End Scenario.

(** Stand-ins for the renderings of the Python library and a few tools,
    for the concrete runs below. *)
Module Demo.

(** A rendering of a float by its mantissa and exponent. *)
Definition str_float (x : PyFloat.float) : string :=
  match x with
  | S754_zero _ => "0.0"
  | S754_infinity s => if s then "-inf" else "inf"
  | S754_nan => "nan"
  | S754_finite s m e =>
      (if s then "-" else "") ++ PyStr.str_int (Zpos m) ++ "p" ++ PyStr.str_int e
  end.

(** The text of a [CalledProcessError]. *)
Definition cpe_str (rc : Z) (cmd : list string) : string :=
  "Command '" ++ String.concat " " cmd ++ "' returned non-zero exit status "
  ++ PyStr.str_int rc ++ ".".

(** Adds the file [p] to the listing of its directory. *)
Definition touch (f : filesystem) (p : string) : filesystem :=
  match f !! PyStr.dirname p with
  | Some l =>
      if Os.mem (PyStr.basename p) l then f
      else <[PyStr.dirname p := (l ++ [PyStr.basename p])%list]> f
  | None => f
  end.

Definition last_arg (cmd : list string) : string := List.last cmd EmptyString.

(** A tool that works unless [fails] says otherwise: detection prints
    [detected] on its error stream, the fixed-length mode writes three
    segments, every other command writes its last argument. *)
Definition tool (fails : list string -> bool) (detected : string)
  (cmd : list string) (f : filesystem) : outcome * filesystem :=
  if fails cmd then (Exited 1 "" "Conversion failed!", f)
  else if Os.mem "-af" cmd then (Exited 0 "" detected, f)
  else if Os.mem "-segment_time" cmd then
    let d := PyStr.dirname (last_arg cmd) in
    (Exited 0 "" "",
     touch (touch (touch f (PyStr.join d "segment_000.wav"))
                  (PyStr.join d "segment_001.wav"))
           (PyStr.join d "segment_002.wav"))
  else (Exited 0 "" "", touch f (last_arg cmd)).

Definition never (cmd : list string) : bool := false.

(** Fails on the command that writes [name]. *)
Definition on_output (name : string) (cmd : list string) : bool :=
  PyStr.endswith (last_arg cmd) name.

(** A tool that exits with 0, prints a diagnostic and writes nothing. *)
Definition idle_tool (cmd : list string) (f : filesystem) : outcome * filesystem :=
  (Exited 0 "" "Output file is empty, nothing was encoded", f).


(** A tool that exits with 0 and writes a file of another name. *)
Definition stray_tool (cmd : list string) (f : filesystem) : outcome * filesystem :=
  (Exited 0 "" "", touch f (PyStr.join (PyStr.dirname (last_arg cmd)) "stray.wav")).

(** An upload directory with one file. *)
Definition uploads : filesystem := {[ "/up" := ["a.mp3"] ]}.

(** The same after a first run of the pipeline. *)
Definition after_first_run : filesystem :=
  {[ "/up" := ["a.mp3"; "output"];
     "/up/output" := ["converted_aaaaaaaa.wav"; "01_segments_bbbbbbbb"];
     "/up/output/01_segments_bbbbbbbb" := ["segment_001.wav"] ]}.

Definition fresh (f : filesystem) : state := mkState f [] [].

(** The file system of the first run once the folder of a second run is
    made. *)
Definition second_folder_made : filesystem :=
  match Os.makedirs after_first_run "/up/output/01_segments_dddddddd" with
  | inr f => f
  | inl _ => after_first_run
  end.

(** 0.3, 2.0, 3.0, 1.0, 3.5, 4.5 *)
Definition f0_3 : PyFloat.float := S754_finite false 5404319552844595 (-54).
Definition f2_0 : PyFloat.float := S754_finite false 4503599627370496 (-51).
Definition f1_0 : PyFloat.float := S754_finite false 4503599627370496 (-52).
Definition f3_5 : PyFloat.float := S754_finite false 7881299347898368 (-51).

End Demo.

(** ** The upload handler: [app/main.py] *)

(** [c.lower()] for an ASCII character; the others are left as they are,
    which is all the test of the extension [.mp3] depends on. *)
Definition lower_char (c : ascii) : ascii :=
  let n := nat_of_ascii c in
  if ((65 <=? n) && (n <=? 90))%nat then ascii_of_nat (n + 32) else c.

(** [s.lower()] *)
Fixpoint lower (s : string) : string :=
  match s with
  | EmptyString => EmptyString
  | String c r => String (lower_char c) (lower r)
  end.

(** The uploaded file of a request, a [FileStorage]: its name. *)
Record FileStorage : Type := mkFile { filename : string }.

(** A request to the route [/]: its method and, for a POST, the entry
    [file] of [request.files] when there is one. *)
Inductive request : Type :=
| GET
| POST (file : option FileStorage).

(** What the handler answers: [flash(msg)] and a redirect to the form, or
    a rendered template with its arguments. *)
Inductive response : Type :=
| Redirect (flashed : string)
| Template (name : string) (output_files : list string)
           (original_filename : option string).

(** Writing a file at [p]: its directory must exist, and [p] must be no
    directory. *)
Definition write_file (f : filesystem) (p : string) : exn + filesystem :=
  if Os.isdir f p then inl (OSError ("[Errno 21] Is a directory: '" ++ p ++ "'"))
  else
    match f !! PyStr.dirname p with
    | Some l =>
        inr (if Os.mem (PyStr.basename p) l then f
             else <[PyStr.dirname p := (l ++ [PyStr.basename p])%list]> f)
    | None => inl (Os.enoent p)
    end.

(** [file.save(filepath)] *)
Definition file_save (p : string) : M unit :=
  fun st =>
    match write_file st.(fs) p with
    | inr f' => (inr tt, mkState f' st.(calls) st.(log))
    | inl e => (inl e, st)
    end.

Section Handler.

Variable ffmpeg : list string -> filesystem -> outcome * filesystem.
Variable str_float : PyFloat.float -> string.
Variable cpe_str : Z -> list string -> string.
(** [werkzeug.utils.secure_filename] *)
Variable secure_filename : string -> string.
(** [app.config['UPLOAD_FOLDER']] *)
Variable UPLOAD_FOLDER : string.

(** The view of the route [/]. The three identifiers are the one of the
    handler and the two of the processor; the records the handler sends to
    the logger of its module are left out. *)
Definition upload_file (unique_id id_wav id_dir : string) (req : request)
  : M response :=
  match req with
  | POST None => ret (Redirect "No file part")
  | POST (Some file) =>
      if String.eqb file.(filename) "" then ret (Redirect "No selected file")
      else if PyStr.endswith (lower file.(filename)) ".mp3" then
        try_except
          (let name := unique_id ++ "_" ++ secure_filename file.(filename) in
           let filepath := PyStr.join UPLOAD_FOLDER name in
           file_save filepath ;;;
           output_files <- process_audio ffmpeg str_float cpe_str
                             id_wav id_dir filepath ;;
           let segment_paths := List.map PyStr.basename output_files in
           ret (Template "result.html" segment_paths (Some name)))
          (fun e =>
             ret (Redirect ("Error processing file: " ++ str_exn cpe_str e)))
      else ret (Redirect "Please upload an MP3 file")
  | GET => ret (Template "index.html" [] None)
  end.

End Handler.

Module DemoUpload.

(** A stand-in for [secure_filename]: spaces become underscores. *)
Fixpoint secure_filename (s : string) : string :=
  match s with
  | EmptyString => EmptyString
  | String c r =>
      String (if Ascii.eqb c " " then "_"%char else c) (secure_filename r)
  end.

Definition song : FileStorage := mkFile "My Song.MP3".
Definition notes : FileStorage := mkFile "notes.txt".

End DemoUpload.

(** * Properties *)

(** ** Strings and patterns *)

Section StringFacts.

Lemma append_cons (c : ascii) (s t : string) :
  String c s ++ t = String c (s ++ t).
Proof. reflexivity. Qed.

Lemma append_nil (t : string) : "" ++ t = t.
Proof. reflexivity. Qed.

Lemma append_empty_r (s : string) : s ++ "" = s.
Proof.
  induction s as [|c s IH]; [reflexivity|]. now rewrite append_cons, IH.
Qed.

Lemma span_digits_spec (s d t : string) :
  PyStr.span_digits s = (d, t) ->
  s = d ++ t /\ PyStr.all_digits d = true /\ PyStr.stops t.
Proof.
  revert d t. induction s as [|c s IH]; intros d t H; simpl in H.
  - inversion H; subst. repeat split.
  - destruct (PyStr.is_digit c) eqn:Hc.
    + destruct (PyStr.span_digits s) as [d' t'] eqn:Hs.
      inversion H; subst. destruct (IH d' t eq_refl) as (-> & Hd & Ht).
      rewrite append_cons. simpl. rewrite Hc, Hd. repeat split. exact Ht.
    + inversion H; subst. rewrite append_nil. simpl. repeat split. exact Hc.
Qed.

Lemma span_digits_app (d t : string) :
  PyStr.all_digits d = true -> PyStr.stops t ->
  PyStr.span_digits (d ++ t) = (d, t).
Proof.
  intros Hd Ht. induction d as [|c d IH].
  - rewrite append_nil. destruct t as [|c t]; [reflexivity|].
    simpl in *. now rewrite Ht.
  - simpl in Hd. apply andb_prop in Hd as [Hc Hd].
    rewrite append_cons. simpl. now rewrite Hc, (IH Hd).
Qed.

Lemma digit_value_nonneg (c : ascii) :
  PyStr.is_digit c = true -> (0 <= PyStr.digit_value c)%Z.
Proof.
  unfold PyStr.is_digit, PyStr.digit_value. intros H.
  apply andb_prop in H as [H _]. apply Nat.leb_le in H. lia.
Qed.

Lemma int_of_digits_acc_nonneg (s : string) (acc : Z) :
  (0 <= acc)%Z -> PyStr.all_digits s = true ->
  (0 <= PyStr.int_of_digits_acc acc s)%Z.
Proof.
  revert acc. induction s as [|c s IH]; intros acc Ha Hs; simpl in *.
  - exact Ha.
  - apply andb_prop in Hs as [Hc Hs]. apply IH; [|exact Hs].
    pose proof (digit_value_nonneg c Hc). lia.
Qed.

Lemma all_digits_app (a b : string) :
  PyStr.all_digits a = true -> PyStr.all_digits b = true ->
  PyStr.all_digits (a ++ b) = true.
Proof.
  intros Ha Hb. induction a as [|c a IH]; [exact Hb|].
  simpl in Ha. apply andb_prop in Ha as [Hc Ha].
  rewrite append_cons. simpl. now rewrite Hc, IH.
Qed.

(** A group of the timestamp pattern is a decimal: digits, a point,
    digits. *)
Lemma match_timestamp_decimal (label s g : string) (n : nat) :
  Re.match_timestamp label s = Some (g, n) -> PyStr.decimal g.
Proof.
  unfold Re.match_timestamp. intros H.
  destruct (PyStr.strip_prefix label s) as [r|]; [|discriminate].
  destruct (PyStr.span_digits r) as [d1 r1] eqn:H1.
  destruct d1 as [|c1 d1]; [discriminate|].
  destruct r1 as [|c r2]; [discriminate|].
  destruct (Ascii.eqb_spec c ".") as [->|Hne].
  2:{ exfalso. revert H. clear -Hne.
      destruct c as [[] [] [] [] [] [] [] []]; try discriminate.
      now contradict Hne. }
  destruct (PyStr.span_digits r2) as [d2 r3] eqn:H2.
  destruct d2 as [|c2 d2]; [discriminate|].
  inversion H; subst. clear H.
  apply span_digits_spec in H1 as (_ & Hd1 & _).
  apply span_digits_spec in H2 as (_ & Hd2 & _).
  exists (String c1 d1), (String c2 d2). repeat split; try assumption; discriminate.
Qed.

Lemma scan_Forall (P : string -> Prop) (m : string -> option (string * nat)) :
  (forall s g n, m s = Some (g, n) -> P g) ->
  forall s skip, Forall P (Re.scan m skip s).
Proof.
  intros Hm. induction s as [|c s IH]; intros skip; simpl.
  - constructor.
  - destruct skip as [|k]; [|apply IH].
    destruct (m (String c s)) as [[g len]|] eqn:E; [|apply IH].
    constructor; [eapply Hm; eassumption | apply IH].
Qed.

Lemma findall_timestamp_decimal (label s : string) :
  Forall PyStr.decimal (Re.findall (Re.match_timestamp label) s).
Proof.
  apply scan_Forall. intros s' g n. apply match_timestamp_decimal.
Qed.

End StringFacts.

(** ** Floats *)

Section FloatFacts.

Lemma iter_pos_invariant {A : Type} (P : A -> Prop) (f : A -> A) :
  (forall x, P x -> P (f x)) ->
  forall (p : positive) (x : A), P x -> P (SpecFloat.iter_pos f p x).
Proof.
  intros Hf. induction p as [p IH|p IH|]; intros x Hx; simpl; auto.
Qed.

Lemma shr_1_nonneg (mrs : shr_record) :
  (0 <= shr_m mrs)%Z -> (0 <= shr_m (shr_1 mrs))%Z.
Proof.
  destruct mrs as [m r s]. simpl.
  destruct m as [|[p|p|]|[p|p|]]; simpl; lia.
Qed.

Lemma shr_fexp_nonneg (m e : Z) (l : location) :
  (0 <= m)%Z ->
  (0 <= shr_m (fst (shr_fexp PyFloat.prec PyFloat.emax m e l)))%Z.
Proof.
  intros Hm. unfold shr_fexp, shr.
  assert (H0 : (0 <= shr_m (shr_record_of_loc m l))%Z)
    by (destruct l as [|[]]; exact Hm).
  destruct (fexp PyFloat.prec PyFloat.emax (Zdigits2 m + e) - e)%Z; simpl;
    try exact H0.
  apply (iter_pos_invariant (fun r => (0 <= shr_m r)%Z)); [|exact H0].
  exact shr_1_nonneg.
Qed.

Lemma round_nearest_even_nonneg (m : Z) (l : location) :
  (0 <= m)%Z -> (0 <= round_nearest_even m l)%Z.
Proof.
  intros Hm. destruct l as [|[]]; simpl; try exact Hm; [|lia].
  destruct (Z.even m); lia.
Qed.

Lemma binary_round_aux_nonneg (m e : Z) (l : location) :
  (0 <= m)%Z ->
  PyFloat.nonneg (binary_round_aux PyFloat.prec PyFloat.emax false m e l).
Proof.
  intros Hm. unfold binary_round_aux.
  pose proof (shr_fexp_nonneg m e l Hm) as H1.
  destruct (shr_fexp PyFloat.prec PyFloat.emax m e l) as [mrs' e'].
  simpl in H1.
  pose proof (shr_fexp_nonneg _ e' loc_Exact
                (round_nearest_even_nonneg _ (loc_of_shr_record mrs') H1)) as H2.
  destruct (shr_fexp PyFloat.prec PyFloat.emax _ e' loc_Exact) as [mrs'' e''].
  simpl in H2.
  destruct (shr_m mrs'') as [|p|p]; [reflexivity| |lia].
  destruct (e'' <=? PyFloat.emax - PyFloat.prec)%Z; reflexivity.
Qed.

Lemma of_ratio_nonneg (n d : positive) : PyFloat.nonneg (PyFloat.of_ratio n d).
Proof.
  unfold PyFloat.of_ratio, SFdiv_core_binary.
  set (e' := Z.min _ _). set (s := (0 - 0 - e')%Z).
  set (m' := match s with Z0 => Zpos n | Zpos _ => Z.shiftl (Zpos n) s | Zneg _ => 0%Z end).
  assert (Hm' : (0 <= m')%Z).
  { subst m'. destruct s; try lia. apply Z.shiftl_nonneg. lia. }
  pose proof (Z.div_pos m' (Zpos d) Hm' eq_refl) as Hq.
  unfold Z.div in Hq.
  destruct (Z.div_eucl m' (Z.pos d)) as [q r].
  apply binary_round_aux_nonneg. exact Hq.
Qed.

(** [float] accepts every decimal, and the value is not negative. *)
Lemma of_string_decimal (g : string) :
  PyStr.decimal g -> exists x, PyFloat.of_string g = Some x /\ PyFloat.nonneg x.
Proof.
  intros (d1 & d2 & -> & H1 & N1 & H2 & N2).
  unfold PyFloat.of_string, PyFloat.split_decimal.
  rewrite (span_digits_app d1 ("." ++ d2) H1) by reflexivity.
  destruct d1 as [|c1 d1]; [contradiction|].
  rewrite append_cons, append_nil.
  pose proof (span_digits_app d2 "" H2 I) as E2.
  rewrite append_empty_r in E2. rewrite E2.
  destruct d2 as [|c2 d2]; [contradiction|].
  pose proof (int_of_digits_acc_nonneg (String c1 d1 ++ String c2 d2) 0
                (Z.le_refl 0) (all_digits_app _ _ H1 H2)) as Hn.
  fold (PyStr.int_of_digits (String c1 d1 ++ String c2 d2)) in Hn.
  destruct (PyStr.int_of_digits (String c1 d1 ++ String c2 d2)) as [|n|n].
  - eexists; split; [reflexivity|reflexivity].
  - eexists; split; [reflexivity|apply of_ratio_nonneg].
  - lia.
Qed.

End FloatFacts.

(** ** The parser *)

Section ParserFacts.


Lemma pair_points_inv (l : list (string * string)) (pts : list point) :
  pair_points l = inr pts -> Forall2 point_of l pts.
Proof.
  revert pts. induction l as [|[s e] l IH]; intros pts H; simpl in H.
  - inversion H. constructor.
  - destruct (PyFloat.of_string s) as [x|] eqn:Es; [|discriminate].
    destruct (PyFloat.of_string e) as [y|] eqn:Ee; [|discriminate].
    destruct (pair_points l) as [?|ps]; [discriminate|].
    inversion H; subst. constructor; [split; assumption | now apply IH].
Qed.

Lemma Forall_combine {A B : Type} (P : A -> Prop) (Q : B -> Prop)
  (la : list A) (lb : list B) :
  Forall P la -> Forall Q lb ->
  Forall (fun ab => P (fst ab) /\ Q (snd ab)) (combine la lb).
Proof.
  intros Ha. revert lb. induction Ha as [|a la Pa _ IH]; intros lb Hb; simpl.
  - constructor.
  - destruct Hb as [|b lb Qb Hb]; constructor; [split; assumption | now apply IH].
Qed.



Lemma point_of_nonneg (se : string * string) (p : point) :
  PyStr.decimal (fst se) -> PyStr.decimal (snd se) -> point_of se p ->
  PyFloat.nonneg p.(start) /\ PyFloat.nonneg p.(end_).
Proof.
  intros Hs He [Ps Pe].
  destruct (of_string_decimal _ Hs) as (x & Ex & Nx).
  destruct (of_string_decimal _ He) as (y & Ey & Ny).
  rewrite Ex in Ps. rewrite Ey in Pe. inversion Ps. inversion Pe. subst.
  now split.
Qed.

End ParserFacts.


(** C6 as it stands fails: an onset the pattern does not match (ffmpeg
    prints a negative one for a file that starts in silence) shifts the
    pairing, and the point gets a start after its end. *)
Lemma parse_silence_points_start_after_end :
  parse_silence_points NegativeOnset.text
  = inr [mkPoint NegativeOnset.four NegativeOnset.one_and_a_half] /\
  PyFloat.ltb NegativeOnset.four NegativeOnset.one_and_a_half = false.
Proof. split; vm_compute; reflexivity. Qed.

(** C6, amended. Every point the parser returns has [0 <= start] and
    [0 <= end]; the order of the two is not checked. *)
Theorem parse_silence_points_nonneg
  (silence_output : string) (pts : list point) (p : point) :
  parse_silence_points silence_output = inr pts ->
  In p pts ->
  PyFloat.nonneg p.(start) /\ PyFloat.nonneg p.(end_).
Proof.
  intros E Hp. unfold parse_silence_points in E.
  apply pair_points_inv in E.
  pose proof (Forall_combine _ _ _ _
                (findall_timestamp_decimal "silence_start: " silence_output)
                (findall_timestamp_decimal "silence_end: " silence_output)) as D.
  fold start_pattern end_pattern in D.
  revert D Hp. induction E as [|se q l qs Hq _ IH]; intros D Hp.
  - contradiction.
  - inversion D; subst. destruct Hp as [<-|Hp].
    + destruct H1. eapply point_of_nonneg; eassumption.
    + now apply IH.
Qed.

Lemma parse_silence_points_nonneg_witness :
  PyFloat.nonneg NegativeOnset.four /\ PyFloat.nonneg NegativeOnset.one_and_a_half.
Proof.
  apply (parse_silence_points_nonneg NegativeOnset.text
           [mkPoint NegativeOnset.four NegativeOnset.one_and_a_half]
           (mkPoint NegativeOnset.four NegativeOnset.one_and_a_half)).
  - vm_compute; reflexivity.
  - left; reflexivity.
Defined.

(** ** The stages *)

Section StageFacts.

Variable ffmpeg : list string -> filesystem -> outcome * filesystem.
Variable str_float : PyFloat.float -> string.
Variable cpe_str : Z -> list string -> string.

Local Abbreviation run := (subprocess_run ffmpeg).
Local Abbreviation loop := (extract_segments ffmpeg str_float).
Local Abbreviation plan := (planned_commands str_float).
Local Abbreviation split := (split_audio ffmpeg str_float cpe_str).

(** The three ways a tool run ends. *)
Lemma subprocess_run_cases (capture : bool) (cmd : list string) (st : state) :
  (exists out err f,
      ffmpeg cmd st.(fs) = (Exited 0 out err, f) /\
      run capture cmd st
      = (inr (mkCompleted (if capture then Some out else None)
                          (if capture then Some err else None)),
         ran st cmd f)) \/
  (exists rc out err f,
      ffmpeg cmd st.(fs) = (Exited rc out err, f) /\ rc <> 0%Z /\
      run capture cmd st
      = (inl (CalledProcessError rc cmd (if capture then Some err else None)),
         ran st cmd f)) \/
  (exists msg f,
      ffmpeg cmd st.(fs) = (NotStarted msg, f) /\
      run capture cmd st = (inl (OSError msg), ran st cmd st.(fs))).
Proof.
  unfold subprocess_run, ran.
  destruct (ffmpeg cmd (fs st)) as [[rc out err|msg] f].
  - destruct (Z.eqb_spec rc 0) as [->|Hrc].
    + left. now exists out, err, f.
    + right; left. now exists rc, out, err, f.
  - right; right. now exists msg, f.
Qed.

Lemma extract_segments_app (wav dir : string) (pre post : list point) :
  forall (i : nat) (segs : list string) (st : state),
    loop wav dir i (pre ++ post)%list segs st
    = match loop wav dir i pre segs st with
      | (inr segs1, st1) => loop wav dir (i + length pre) post segs1 st1
      | (inl e, st1) => (inl e, st1)
      end.
Proof.
  induction pre as [|p pre IH]; intros i segs st; simpl.
  - now rewrite Nat.add_0_r.
  - unfold bind, os_path_exists.
    destruct (run false _ st) as [[e|c] st1]; [reflexivity|].
    rewrite IH. now rewrite Nat.add_succ_r.
Qed.

(** A loop that ends has run the planned commands, all of them and in
    order, and has logged nothing. *)
Lemma extract_segments_ok (wav dir : string) (points : list point) :
  forall (i : nat) (segs segs' : list string) (st st' : state),
    loop wav dir i points segs st = (inr segs', st') ->
    st'.(calls) = (st.(calls) ++ plan wav dir i points)%list /\
    st'.(log) = st.(log).
Proof.
  induction points as [|p rest IH]; intros i segs segs' st st' H; simpl in H.
  - inversion H; subst. simpl. now rewrite app_nil_r.
  - unfold bind, os_path_exists in H.
    destruct (subprocess_run_cases false (extract_command str_float wav dir i p) st)
      as [(out & err & f & _ & E)|[(rc & out & err & f & _ & _ & E)|(msg & f & _ & E)]];
      rewrite E in H; try discriminate.
    apply IH in H as [Hc Hl]. simpl in Hc, Hl.
    split; [|exact Hl]. rewrite Hc. now rewrite <- app_assoc.
Qed.


End StageFacts.

Section SplitFacts.

Variable ffmpeg : list string -> filesystem -> outcome * filesystem.
Variable str_float : PyFloat.float -> string.
Variable cpe_str : Z -> list string -> string.

Local Abbreviation run := (subprocess_run ffmpeg).
Local Abbreviation loop := (extract_segments ffmpeg str_float).
Local Abbreviation plan := (planned_commands str_float).
Local Abbreviation split := (split_audio ffmpeg str_float cpe_str).

Lemma listdir_raises (f : filesystem) (p : string) (e : exn) :
  Os.listdir f p = inl e -> is_oserror e.
Proof.
  unfold Os.listdir. destruct (f !! p); [discriminate|].
  intros H; inversion H; exact I.
Qed.

Lemma mkdir_raises (f : filesystem) (p : string) (e : exn) :
  Os.mkdir f p = inl e -> is_oserror e.
Proof.
  unfold Os.mkdir. destruct (Os.exists_ f p).
  - intros H; inversion H; exact I.
  - destruct (f !! PyStr.dirname p); [discriminate|].
    intros H; inversion H; exact I.
Qed.

Lemma makedirs_fuel_raises (fuel : nat) :
  forall (f : filesystem) (p : string) (e : exn),
    Os.makedirs_fuel fuel f p = inl e -> is_oserror e.
Proof.
  induction fuel as [|k IH]; intros f p e H; simpl in H.
  - inversion H; exact I.
  - destruct (PyStr.dirname p) as [|hc ht] eqn:Eh;
      [|destruct (PyStr.basename p) as [|tc tt] eqn:Et].
    3:{ destruct (Os.exists_ f (String hc ht)).
        - destruct (Os.mkdir f p) as [e'|f'] eqn:Em.
          + destruct (Os.isdir f p); [discriminate|].
            inversion H; subst. eapply mkdir_raises; eassumption.
          + discriminate.
        - destruct (Os.makedirs_fuel k f (String hc ht)) as [e'|f'] eqn:Er.
          + destruct (Os.isentry f (String hc ht)).
            * destruct (Os.mkdir f p) as [e''|f''] eqn:Em.
              -- destruct (Os.isdir f p); [discriminate|].
                 inversion H; subst. eapply mkdir_raises; eassumption.
              -- discriminate.
            * inversion H; subst. eapply IH; eassumption.
          + destruct (Os.mkdir f' p) as [e''|f''] eqn:Em.
            * destruct (Os.isdir f' p); [discriminate|].
              inversion H; subst. eapply mkdir_raises; eassumption.
            * discriminate. }
    all: destruct (Os.mkdir f p) as [e'|f'] eqn:Em;
      [destruct (Os.isdir f p); [discriminate|];
       inversion H; subst; eapply mkdir_raises; eassumption
      |discriminate].
Qed.

Lemma makedirs_raises (f : filesystem) (p : string) (e : exn) :
  Os.makedirs f p = inl e -> is_oserror e.
Proof. apply makedirs_fuel_raises. Qed.

(** The body of [split_audio] after the directory is made: the tool runs,
    then the listing. *)
Lemma split_audio_unfold (unique_id wav_file : string)
  (silence_points : option (list point)) (st : state) :
  split unique_id wav_file silence_points st
  = match Os.listdir st.(fs) (PyStr.dirname wav_file) with
    | inl e => (inl e, st)
    | inr listing =>
        let dir := output_dir_of listing unique_id wav_file in
        match Os.makedirs st.(fs) dir with
        | inl e => (inl e, st)
        | inr f1 =>
            let st1 := mkState f1 st.(calls) st.(log) in
            let tool :=
              if falsy silence_points
              then match run false (fixed_command wav_file dir) st1 with
                   | (inr _, st2) => (inr [], st2)
                   | (inl e, st2) => (inl e, st2)
                   end
              else loop wav_file dir 0 (points_of silence_points) [] st1 in
            match tool with
            | (inr _, st2) =>
                match Os.listdir st2.(fs) dir with
                | inr produced => (inr (List.filter is_wav produced), st2)
                | inl e => (inl e, st2)
                end
            | (inl (CalledProcessError rc cmd _), st2) =>
                (inl (PyException ("Failed to split audio: " ++ cpe_str rc cmd)),
                 logged st2 ERROR ("Audio splitting error: " ++ cpe_str rc cmd))
            | (inl e, st2) => (inl e, st2)
            end
        end
    end.
Proof.
  unfold split_audio, try_except, bind, os_listdir, os_makedirs, output_dir_of.
  destruct (Os.listdir (fs st) (PyStr.dirname wav_file)) as [e|listing] eqn:El.
  { apply listdir_raises in El. destruct e; try contradiction; reflexivity. }
  cbv zeta.
  destruct (Os.makedirs (fs st) _) as [e|f1] eqn:Em.
  { apply makedirs_raises in Em. destruct e; try contradiction; reflexivity. }
  destruct (falsy silence_points).
  - unfold bind.
    destruct (run false _ _) as [[e|c] st2].
    + destruct e; reflexivity.
    + simpl. destruct (Os.listdir (fs st2) _) as [e|produced] eqn:Ep; [|reflexivity].
      apply listdir_raises in Ep. destruct e; try contradiction; reflexivity.
  - destruct (loop _ _ _ _ _ _) as [[e|segs] st2].
    + destruct e; reflexivity.
    + simpl. destruct (Os.listdir (fs st2) _) as [e|produced] eqn:Ep; [|reflexivity].
      apply listdir_raises in Ep. destruct e; try contradiction; reflexivity.
Qed.

End SplitFacts.

Section SplitTheorems.

Variable ffmpeg : list string -> filesystem -> outcome * filesystem.
Variable str_float : PyFloat.float -> string.
Variable cpe_str : Z -> list string -> string.

Local Abbreviation run := (subprocess_run ffmpeg).
Local Abbreviation loop := (extract_segments ffmpeg str_float).
Local Abbreviation plan := (planned_commands str_float).
Local Abbreviation split := (split_audio ffmpeg str_float cpe_str).



(** What a run of [split_audio] that returns has done. *)
Lemma split_audio_returns (unique_id wav_file : string)
  (silence_points : option (list point)) (st st' : state) (names : list string) :
  split unique_id wav_file silence_points st = (inr names, st') ->
  exists listing f1 produced,
    Os.listdir st.(fs) (PyStr.dirname wav_file) = inr listing /\
    Os.makedirs st.(fs) (output_dir_of listing unique_id wav_file) = inr f1 /\
    Os.listdir st'.(fs) (output_dir_of listing unique_id wav_file) = inr produced /\
    names = List.filter is_wav produced /\
    st'.(log) = st.(log) /\
    st'.(calls)
    = (st.(calls) ++
       if falsy silence_points
       then [fixed_command wav_file (output_dir_of listing unique_id wav_file)]
       else plan wav_file (output_dir_of listing unique_id wav_file) 0
              (points_of silence_points))%list.
Proof.
  rewrite split_audio_unfold.
  destruct (Os.listdir (fs st) _) as [e|listing] eqn:E0; [discriminate|].
  cbv zeta.
  destruct (Os.makedirs (fs st) _) as [e|f1] eqn:E1; [discriminate|].
  intros H. exists listing, f1.
  destruct (falsy silence_points).
  - destruct (subprocess_run_cases ffmpeg false
                (fixed_command wav_file (output_dir_of listing unique_id wav_file))
                (mkState f1 (calls st) (log st)))
      as [(out & err & f & _ & E)|[(rc & out & err & f & _ & _ & E)|(msg & f & _ & E)]];
      rewrite E in H; try discriminate.
    simpl in H.
    destruct (Os.listdir f _) as [e|produced] eqn:Ep; [discriminate|].
    inversion H; subst. exists produced. simpl. repeat split; auto.
  - destruct (loop _ _ _ _ _ _) as [[e|segs] st2] eqn:El.
    + destruct e; discriminate.
    + apply extract_segments_ok in El as [Hc Hl]. simpl in Hc, Hl.
      destruct (Os.listdir (fs st2) _) as [e|produced] eqn:Ep; [discriminate|].
      inversion H; subst. exists produced. repeat split; auto.
Qed.


End SplitTheorems.

(** ** Directory allocation *)

Lemma existing_numbers_nil (listing : list string) : existing_numbers listing = [].
Proof.
  unfold existing_numbers, existing_folders.
  induction listing as [|f listing IH]; simpl; [reflexivity|].
  destruct (PyStr.startswith f "segments_") eqn:Hf; [|exact IH].
  simpl. rewrite IH.
  destruct f as [|c f]; [discriminate|].
  unfold PyStr.startswith in Hf.
  change (String.prefix "segments_" (String c f))
    with (if ascii_dec "s" c then String.prefix "egments_" f else false) in Hf.
  destruct (ascii_dec "s" c) as [<-|]; [|discriminate].
  reflexivity.
Qed.

(** C1 fails on the code. The listing is filtered to the names that start
    with [segments_], and no such name matches [(\d+)_segments]: no number
    is ever observed, the next number is 1 for every listing, and every run
    names its folder [01_segments_<id>]. *)
Theorem next_number_is_always_one (listing : list string) (unique_id : string) :
  existing_numbers listing = [] /\
  next_number listing = 1%Z /\
  folder_name listing unique_id = "01_segments_" ++ unique_id.
Proof.
  unfold folder_name, next_number. rewrite existing_numbers_nil.
  repeat split.
Qed.

(** A second run beside the folder [01_segments_bbbbbbbb] of a first run
    is given the number 01 again. *)
Example second_run_reuses_number :
  Os.listdir Demo.after_first_run "/up/output"
  = inr ["converted_aaaaaaaa.wav"; "01_segments_bbbbbbbb"] /\
  let r := split_audio (Demo.tool Demo.never "") Demo.str_float Demo.cpe_str
             "dddddddd" "/up/output/converted_aaaaaaaa.wav" None
             (Demo.fresh Demo.after_first_run) in
  fst r = inr ["segment_000.wav"; "segment_001.wav"; "segment_002.wav"] /\
  Os.listdir (snd r).(fs) "/up/output"
  = inr ["converted_aaaaaaaa.wav"; "01_segments_bbbbbbbb"; "01_segments_dddddddd"].
Proof. vm_compute. repeat split. Qed.

(** ** The splitter *)



(** C4. The value [split_audio] returns is the listing of the directory it
    made, read after the tool has run and filtered to the names that end in
    [.wav]: names of the directory's entries, in the listing's order. The
    list the loop gathers from its existence checks has no part in it. *)
Theorem split_audio_returns_listing
  (ffmpeg : list string -> filesystem -> outcome * filesystem)
  (str_float : PyFloat.float -> string) (cpe_str : Z -> list string -> string)
  (unique_id wav_file : string) (silence_points : option (list point))
  (st st' : state) (names : list string) :
  split_audio ffmpeg str_float cpe_str unique_id wav_file silence_points st
  = (inr names, st') ->
  exists listing produced : list string,
    Os.listdir st.(fs) (PyStr.dirname wav_file) = inr listing /\
    Os.listdir st'.(fs) (output_dir_of listing unique_id wav_file) = inr produced /\
    names = List.filter (fun f => PyStr.endswith f ".wav") produced.
Proof.
  intros H.
  apply split_audio_returns in H
    as (listing & f1 & produced & Hl & _ & Hp & Hn & _).
  exists listing, produced. auto.
Qed.

Lemma split_audio_returns_listing_witness :
  exists listing produced : list string,
    Os.listdir Demo.after_first_run "/up/output" = inr listing /\
    Os.listdir
      (snd (split_audio (Demo.tool Demo.never "") Demo.str_float Demo.cpe_str
              "dddddddd" "/up/output/converted_aaaaaaaa.wav"
              (Some [mkPoint Demo.f1_0 Demo.f3_5])
              (Demo.fresh Demo.after_first_run))).(fs)
      (output_dir_of listing "dddddddd" "/up/output/converted_aaaaaaaa.wav")
    = inr produced /\
    ["segment_001.wav"] = List.filter (fun f => PyStr.endswith f ".wav") produced.
Proof.
  apply (split_audio_returns_listing (Demo.tool Demo.never "") Demo.str_float
           Demo.cpe_str "dddddddd" "/up/output/converted_aaaaaaaa.wav"
           (Some [mkPoint Demo.f1_0 Demo.f3_5])
           (Demo.fresh Demo.after_first_run)).
  vm_compute. reflexivity.
Defined.

(** With a tool that writes a file of another name, the loop gathers no
    segment and [split_audio] returns the file all the same. *)
Example split_audio_ignores_gathered_segments :
  let st := mkState Demo.after_first_run [] [] in
  let dir := "/up/output/01_segments_dddddddd" in
  let wav := "/up/output/converted_aaaaaaaa.wav" in
  fst (extract_segments Demo.stray_tool Demo.str_float wav dir 0
         [mkPoint Demo.f1_0 Demo.f3_5] [] st) = inr [] /\
  fst (split_audio Demo.stray_tool Demo.str_float Demo.cpe_str "dddddddd" wav
         (Some [mkPoint Demo.f1_0 Demo.f3_5]) st) = inr ["stray.wav"].
Proof. vm_compute. split; reflexivity. Qed.



(** The fallback on the first run's directory: the three segments the tool
    wrote are the batch. *)
Example split_audio_fallback_run :
  fst (split_audio (Demo.tool Demo.never "") Demo.str_float Demo.cpe_str
         "dddddddd" "/up/output/converted_aaaaaaaa.wav" (Some [])
         (Demo.fresh Demo.after_first_run))
  = inr ["segment_000.wav"; "segment_001.wav"; "segment_002.wav"].
Proof. vm_compute. reflexivity. Qed.

(** C9. Fail-fast in the loop: when the extractions of the points before
    [p] have run and the one of [p] exits with a code other than 0,
    [split_audio] raises at once; the commands run are those of the points
    up to [p], none of the later ones, and no batch is returned. Whether the
    earlier segment files exist plays no part. *)
Theorem split_audio_fails_fast
  (ffmpeg : list string -> filesystem -> outcome * filesystem)
  (str_float : PyFloat.float -> string) (cpe_str : Z -> list string -> string)
  (unique_id wav_file : string) (pre : list point) (p : point) (post : list point)
  (st st1 : state) (listing segs : list string) (f1 f2 : filesystem)
  (rc : Z) (out err : string) :
  Os.listdir st.(fs) (PyStr.dirname wav_file) = inr listing ->
  Os.makedirs st.(fs) (output_dir_of listing unique_id wav_file) = inr f1 ->
  extract_segments ffmpeg str_float wav_file
    (output_dir_of listing unique_id wav_file) 0 pre []
    (mkState f1 st.(calls) st.(log)) = (inr segs, st1) ->
  ffmpeg (extract_command str_float wav_file
            (output_dir_of listing unique_id wav_file) (length pre) p) st1.(fs)
  = (Exited rc out err, f2) ->
  rc <> 0%Z ->
  let dir := output_dir_of listing unique_id wav_file in
  let cmd := extract_command str_float wav_file dir (length pre) p in
  split_audio ffmpeg str_float cpe_str unique_id wav_file
    (Some (pre ++ p :: post)%list) st
  = (inl (PyException ("Failed to split audio: " ++ cpe_str rc cmd)),
     logged (ran st1 cmd f2) ERROR ("Audio splitting error: " ++ cpe_str rc cmd)) /\
  (ran st1 cmd f2).(calls)
  = (st.(calls) ++ planned_commands str_float wav_file dir 0 pre ++ [cmd])%list.
Proof.
  intros Hl Hm Hpre Htool Hrc dir cmd.
  assert (Hcalls : calls st1
                   = (calls st ++ planned_commands str_float wav_file dir 0 pre)%list).
  { apply extract_segments_ok in Hpre as [Hc _]. exact Hc. }
  split.
  - rewrite split_audio_unfold, Hl. cbv zeta. rewrite Hm.
    assert (Hf : falsy (Some (pre ++ p :: post)%list) = false)
      by (destruct pre; reflexivity).
    rewrite Hf. cbn [points_of].
    rewrite extract_segments_app, Hpre. cbn [extract_segments Nat.add].
    unfold bind at 1. unfold subprocess_run at 1.
    fold dir. fold cmd. fold dir in Htool. fold cmd in Htool.
    rewrite Htool. destruct (Z.eqb_spec rc 0) as [->|_]; [contradiction|].
    reflexivity.
  - unfold ran. cbn [calls]. rewrite Hcalls. now rewrite <- app_assoc.
Qed.

Lemma split_audio_fails_fast_witness :
  let tool := Demo.tool (Demo.on_output "segment_002.wav") "" in
  let wav := "/up/output/converted_aaaaaaaa.wav" in
  let dir := output_dir_of ["converted_aaaaaaaa.wav"; "01_segments_bbbbbbbb"]
               "dddddddd" wav in
  let pre := [mkPoint Demo.f1_0 Demo.f3_5] in
  let p := mkPoint Demo.f0_3 Demo.f2_0 in
  let post := [mkPoint Demo.f1_0 Demo.f3_5] in
  let st1 := snd (extract_segments tool Demo.str_float wav dir 0 pre []
                    (mkState Demo.second_folder_made [] [])) in
  let cmd := extract_command Demo.str_float wav dir (length pre) p in
  split_audio tool Demo.str_float Demo.cpe_str "dddddddd" wav
    (Some (pre ++ p :: post)%list) (Demo.fresh Demo.after_first_run)
  = (inl (PyException ("Failed to split audio: " ++ Demo.cpe_str 1 cmd)),
     logged (ran st1 cmd st1.(fs)) ERROR
       ("Audio splitting error: " ++ Demo.cpe_str 1 cmd)) /\
  (ran st1 cmd st1.(fs)).(calls)
  = ((Demo.fresh Demo.after_first_run).(calls)
     ++ planned_commands Demo.str_float wav dir 0 pre ++ [cmd])%list.
Proof.
  apply (split_audio_fails_fast
           (Demo.tool (Demo.on_output "segment_002.wav") "")
           Demo.str_float Demo.cpe_str "dddddddd"
           "/up/output/converted_aaaaaaaa.wav"
           [mkPoint Demo.f1_0 Demo.f3_5] (mkPoint Demo.f0_3 Demo.f2_0)
           [mkPoint Demo.f1_0 Demo.f3_5]
           (Demo.fresh Demo.after_first_run) _
           ["converted_aaaaaaaa.wav"; "01_segments_bbbbbbbb"]
           ["/up/output/01_segments_dddddddd/segment_001.wav"]
           Demo.second_folder_made _ 1%Z "" "Conversion failed!");
    try (vm_compute; reflexivity).
  discriminate.
Defined.


(** ** The pipeline *)

Section PipelineFacts.

Variable ffmpeg : list string -> filesystem -> outcome * filesystem.
Variable str_float : PyFloat.float -> string.
Variable cpe_str : Z -> list string -> string.

Local Abbreviation run := (subprocess_run ffmpeg).
Local Abbreviation loop := (extract_segments ffmpeg str_float).
Local Abbreviation plan := (planned_commands str_float).
Local Abbreviation split := (split_audio ffmpeg str_float cpe_str).
Local Abbreviation convert := (convert_to_wav ffmpeg cpe_str).
Local Abbreviation detect := (detect_silence ffmpeg).
Local Abbreviation process := (process_audio ffmpeg str_float cpe_str).

Lemma convert_to_wav_unfold (unique_id input_file : string) (st : state) :
  convert unique_id input_file st
  = let output_path := converted_path unique_id input_file in
    match Os.makedirs st.(fs) (PyStr.join (PyStr.dirname input_file) "output") with
    | inl e => (inl e, logged st ERROR ("Conversion error: " ++ str_exn cpe_str e))
    | inr f1 =>
        match run true (convert_command input_file output_path)
                (mkState f1 st.(calls) st.(log)) with
        | (inl (CalledProcessError _ _ stderr), st2) =>
            (inl (PyException ("Audio conversion failed: " ++ str_opt stderr)),
             logged st2 ERROR ("FFmpeg conversion error: " ++ str_opt stderr))
        | (inl e, st2) =>
            (inl e, logged st2 ERROR ("Conversion error: " ++ str_exn cpe_str e))
        | (inr _, st2) =>
            if Os.exists_ st2.(fs) output_path
            then (inr output_path,
                  logged st2 INFO ("Successfully converted to WAV: " ++ output_path))
            else (inl (PyException "WAV conversion failed: Output file not created"),
                  logged st2 ERROR
                    "Conversion error: WAV conversion failed: Output file not created")
        end
    end.
Proof.
  unfold convert_to_wav, converted_path, try_except, bind, os_makedirs,
    os_path_exists.
  destruct (Os.makedirs (fs st) _) as [e|f1] eqn:Em.
  { apply makedirs_raises in Em. destruct e; try contradiction; reflexivity. }
  cbv zeta.
  destruct (run true _ _) as [[e|c] st2].
  - destruct e; reflexivity.
  - cbn [fs]. destruct (Os.exists_ (fs st2) _); reflexivity.
Qed.

Lemma detect_silence_unfold (wav_file : string) (st : state) :
  detect wav_file st
  = match run true (silence_command wav_file) st with
    | (inl (CalledProcessError _ _ stderr), st1) =>
        (inl (PyException ("Silence detection failed: " ++ str_opt stderr)),
         logged st1 ERROR ("Silence detection error: " ++ str_opt stderr))
    | (inl e, st1) => (inl e, st1)
    | (inr process, st1) => (inr (str_opt process.(cp_stderr)), st1)
    end.
Proof.
  unfold detect_silence, try_except, bind.
  destruct (run true _ st) as [[e|c] st1]; [destruct e|]; reflexivity.
Qed.






(** The body of [process_audio], stage by stage. *)
Lemma process_audio_unfold (id_wav id_dir input_file : string) (st : state) :
  process id_wav id_dir input_file st
  = let failed (e : exn) (s : state) : (exn + list string) * state :=
      (inl e, logged s ERROR ("Audio processing failed: " ++ str_exn cpe_str e)) in
    match convert id_wav input_file st with
    | (inl e, st1) => failed e st1
    | (inr wav_file, st1) =>
        match detect wav_file st1 with
        | (inl e, st2) => failed e st2
        | (inr silence_output, st2) =>
            match parse_silence_points silence_output with
            | inl e => failed e st2
            | inr silence_points =>
                match split id_dir wav_file (Some silence_points) st2 with
                | (inl e, st3) => failed e st3
                | (inr segments, st3) =>
                    (inr segments,
                     logged st3 INFO
                       ("Generated "
                        ++ PyStr.str_int (Z.of_nat (List.length segments))
                        ++ " audio segments"))
                end
            end
        end
    end.
Proof.
  unfold process_audio, try_except, bind, lift. cbv zeta.
  destruct (convert id_wav input_file st) as [[e|wav] st1]; [reflexivity|].
  destruct (detect wav st1) as [[e|out] st2]; [reflexivity|].
  destruct (parse_silence_points out) as [e|pts]; [reflexivity|].
  destruct (split id_dir wav (Some pts) st2) as [[e|segs] st3]; reflexivity.
Qed.

End PipelineFacts.








(** * Further properties *)

(** ** Numbers in names *)

Section NumberFacts.

Lemma int_of_digits_acc_uint_pos (d : Decimal.uint) :
  forall acc : positive,
    PyStr.int_of_digits_acc (Zpos acc) (NilEmpty.string_of_uint d)
    = Zpos (Pos.of_uint_acc d acc).
Proof.
  induction d as [|d IH|d IH|d IH|d IH|d IH|d IH|d IH|d IH|d IH|d IH];
    intros acc; [reflexivity|..];
    cbn [NilEmpty.string_of_uint PyStr.int_of_digits_acc Pos.of_uint_acc];
    rewrite <- IH; f_equal;
    match goal with
    | |- context [PyStr.digit_value ?c] =>
        let v := eval vm_compute in (PyStr.digit_value c) in
        change (PyStr.digit_value c) with v
    end; lia.
Qed.

Lemma int_of_digits_acc_uint (d : Decimal.uint) :
  PyStr.int_of_digits_acc 0 (NilEmpty.string_of_uint d) = Z.of_N (Pos.of_uint d).
Proof.
  induction d as [|d IH|d IH|d IH|d IH|d IH|d IH|d IH|d IH|d IH|d IH];
    [reflexivity|exact IH|..];
    cbn [NilEmpty.string_of_uint PyStr.int_of_digits_acc Pos.of_uint Z.of_N];
    rewrite <- int_of_digits_acc_uint_pos; f_equal.
Qed.

Lemma str_int_pos (p : positive) :
  PyStr.str_int (Zpos p) = NilEmpty.string_of_uint (Pos.to_uint p).
Proof.
  unfold PyStr.str_int. cbn [Z.to_int NilZero.string_of_int].
  unfold NilZero.string_of_uint.
  pose proof (Unsigned.to_uint_nonnil p) as H.
  destruct (Pos.to_uint p); [contradiction|reflexivity..].
Qed.

(** [int(str(n)) == n] *)
Lemma int_of_digits_str_int (n : Z) :
  (0 <= n)%Z -> PyStr.int_of_digits (PyStr.str_int n) = n.
Proof.
  intros Hn. destruct n as [|p|p]; [reflexivity| |lia].
  rewrite str_int_pos. unfold PyStr.int_of_digits.
  rewrite int_of_digits_acc_uint, Unsigned.of_to. reflexivity.
Qed.

Lemma all_digits_uint (d : Decimal.uint) :
  PyStr.all_digits (NilEmpty.string_of_uint d) = true.
Proof.
  induction d as [|d IH|d IH|d IH|d IH|d IH|d IH|d IH|d IH|d IH|d IH];
    [reflexivity|..]; cbn [NilEmpty.string_of_uint PyStr.all_digits];
    rewrite IH; reflexivity.
Qed.

Lemma all_digits_str_int (n : Z) :
  (0 <= n)%Z -> PyStr.all_digits (PyStr.str_int n) = true.
Proof.
  intros Hn. destruct n as [|p|p]; [reflexivity| |lia].
  rewrite str_int_pos. apply all_digits_uint.
Qed.

Lemma str_int_nonempty (n : Z) : (0 <= n)%Z -> PyStr.str_int n <> EmptyString.
Proof.
  intros Hn. destruct n as [|p|p]; [discriminate| |lia].
  rewrite str_int_pos. pose proof (Unsigned.to_uint_nonnil p) as H.
  destruct (Pos.to_uint p); [contradiction|discriminate..].
Qed.

Lemma all_digits_zeros (k : nat) : PyStr.all_digits (PyStr.zeros k) = true.
Proof. induction k as [|k IH]; [reflexivity|]. simpl. exact IH. Qed.

Lemma all_digits_zfill (w : nat) (s : string) :
  PyStr.all_digits s = true -> PyStr.all_digits (PyStr.zfill w s) = true.
Proof. intros H. apply all_digits_app; [apply all_digits_zeros | exact H]. Qed.

Lemma int_of_digits_zfill (w : nat) (s : string) :
  PyStr.int_of_digits (PyStr.zfill w s) = PyStr.int_of_digits s.
Proof.
  unfold PyStr.zfill, PyStr.int_of_digits.
  induction (w - String.length s)%nat as [|k IH]; [reflexivity|].
  cbn [PyStr.zeros]. rewrite append_cons. exact IH.
Qed.

Lemma zfill_nonempty (w : nat) (s : string) :
  s <> EmptyString -> PyStr.zfill w s <> EmptyString.
Proof.
  intros H. unfold PyStr.zfill.
  destruct (w - String.length s)%nat; [exact H | discriminate].
Qed.

End NumberFacts.

(** The number written into a folder name is the number read back: the
    pattern [(\d+)_segments] matches a name made by
    [str(n).zfill(2) + '_segments_' + id], its group is the padded number,
    and [int] of the group is [n]. *)
Theorem folder_number_round_trip (n : Z) (unique_id : string) :
  (0 <= n)%Z ->
  let padded := PyStr.zfill 2 (PyStr.str_int n) in
  Re.match_numbered_segments (padded ++ "_segments_" ++ unique_id) = Some padded /\
  PyStr.int_of_digits padded = n.
Proof.
  intros Hn padded. split.
  - unfold Re.match_numbered_segments.
    rewrite (span_digits_app padded ("_segments_" ++ unique_id)).
    + pose proof (zfill_nonempty 2 _ (str_int_nonempty n Hn)) as Hne.
      fold padded in Hne. destruct padded; [contradiction|reflexivity].
    + apply all_digits_zfill, all_digits_str_int, Hn.
    + reflexivity.
  - unfold padded. rewrite int_of_digits_zfill. apply int_of_digits_str_int, Hn.
Qed.

Lemma folder_number_round_trip_witness :
  Re.match_numbered_segments ("07" ++ "_segments_" ++ "bbbbbbbb") = Some "07" /\
  PyStr.int_of_digits "07" = 7%Z.
Proof.
  apply (folder_number_round_trip 7 "bbbbbbbb"). lia.
Defined.

Section NameFacts.

Lemma length_append (a b : string) :
  String.length (a ++ b) = (String.length a + String.length b)%nat.
Proof.
  induction a as [|c a IH]; [reflexivity|].
  rewrite append_cons. simpl. now rewrite IH.
Qed.

Lemma append_assoc (a b c : string) : (a ++ b) ++ c = a ++ (b ++ c).
Proof.
  induction a as [|x a IH]; [reflexivity|].
  rewrite !append_cons. now rewrite IH.
Qed.

Lemma substring_all (s : string) : substring 0 (String.length s) s = s.
Proof. induction s as [|c s IH]; [reflexivity|]. simpl. now rewrite IH. Qed.

Lemma substring_skip (a b : string) (k : nat) :
  substring (String.length a) k (a ++ b) = substring 0 k b.
Proof.
  induction a as [|c a IH]; [reflexivity|].
  rewrite append_cons. simpl. exact IH.
Qed.

(** [(a + suf).endswith(suf)] *)
Lemma endswith_append (a suf : string) : PyStr.endswith (a ++ suf) suf = true.
Proof.
  unfold PyStr.endswith. rewrite length_append.
  replace (String.length suf <=? String.length a + String.length suf)%nat
    with true by (symmetry; apply Nat.leb_le; lia).
  replace (String.length a + String.length suf - String.length suf)%nat
    with (String.length a) by lia.
  rewrite substring_skip, substring_all. apply String.eqb_refl.
Qed.

Lemma segment_name_digits (i : nat) :
  exists d, segment_name i = "segment_" ++ d ++ ".wav" /\
            PyStr.all_digits d = true /\
            PyStr.int_of_digits d = (Z.of_nat i + 1)%Z.
Proof.
  exists (PyStr.format_03d (Z.of_nat i + 1)). split; [reflexivity|].
  unfold PyStr.format_03d. split.
  - apply all_digits_zfill, all_digits_str_int. lia.
  - rewrite int_of_digits_zfill. apply int_of_digits_str_int. lia.
Qed.

End NameFacts.

(** The segments of two different points never share a file: the names
    [segment_<i+1:03d>.wav] are different for different indices, beyond 999
    too, and each ends in [.wav], so the file is part of the listing that
    [split_audio] returns. *)
Theorem segment_name_distinct (i j : nat) :
  i <> j ->
  segment_name i <> segment_name j /\
  is_wav (segment_name i) = true /\ is_wav (segment_name j) = true.
Proof.
  intros Hij. split.
  - intros H. apply Hij.
    destruct (segment_name_digits i) as (di & Ei & Di & Vi).
    destruct (segment_name_digits j) as (dj & Ej & Dj & Vj).
    rewrite Ei, Ej in H.
    assert (H' : di ++ ".wav" = dj ++ ".wav") by (inversion H as [H1]; exact H1).
    assert (E : PyStr.span_digits (di ++ ".wav") = PyStr.span_digits (dj ++ ".wav"))
      by now rewrite H'.
    rewrite (span_digits_app di ".wav" Di), (span_digits_app dj ".wav" Dj) in E
      by reflexivity.
    inversion E; subst. lia.
  - split; unfold is_wav, segment_name;
      rewrite <- append_assoc; apply endswith_append.
Qed.

Lemma segment_name_distinct_witness :
  segment_name 998 <> segment_name 999 /\
  is_wav (segment_name 998) = true /\ is_wav (segment_name 999) = true.
Proof. apply (segment_name_distinct 998 999). lia. Defined.

(** ** Paths *)

Section PathFacts.

Lemma has_slash_append (a b : string) :
  PyStr.has_slash (a ++ b) = PyStr.has_slash a || PyStr.has_slash b.
Proof.
  induction a as [|c a IH]; [reflexivity|].
  rewrite append_cons. simpl. rewrite IH. now rewrite orb_assoc.
Qed.

Lemma upto_last_slash_none (b : string) :
  PyStr.has_slash b = false -> PyStr.upto_last_slash b = EmptyString.
Proof.
  destruct b as [|c b]; [reflexivity|]. simpl. now intros ->.
Qed.

(** The head of [a/b] is [a/] when [b] has no slash. *)
Lemma upto_last_slash_append (a b : string) :
  PyStr.has_slash b = false ->
  PyStr.upto_last_slash (a ++ "/" ++ b) = a ++ "/".
Proof.
  intros Hb. induction a as [|c a IH].
  - change ("" ++ "/" ++ b) with (String "/" b). simpl.
    now rewrite (upto_last_slash_none b Hb).
  - rewrite append_cons. cbn [PyStr.upto_last_slash]. rewrite IH.
    rewrite has_slash_append. cbn [PyStr.has_slash append].
    change (PyStr.is_slash "/") with true. now rewrite !orb_true_r.
Qed.

Lemma rstrip_slash_append (y : string) (c : ascii) :
  PyStr.is_slash c = false ->
  PyStr.rstrip_slash ((y ++ String c "") ++ "/") = y ++ String c "".
Proof.
  intros Hc. induction y as [|x y IH].
  - change (("" ++ String c "") ++ "/") with (String c "/"). simpl. now rewrite Hc.
  - rewrite !append_cons. simpl. rewrite IH.
    destruct y; reflexivity.
Qed.

(** [dirname(a + '/' + b) == a] when [a] ends with a character that is no
    slash and [b] has none. *)
Lemma dirname_append (y : string) (c : ascii) (b : string) :
  PyStr.is_slash c = false -> PyStr.has_slash b = false ->
  PyStr.dirname ((y ++ String c "") ++ "/" ++ b) = y ++ String c "".
Proof.
  intros Hc Hb. unfold PyStr.dirname.
  rewrite (upto_last_slash_append _ b Hb).
  rewrite (rstrip_slash_append y c Hc).
  destruct y; reflexivity.
Qed.

Lemma basename_append (a b : string) :
  PyStr.has_slash b = false -> PyStr.basename (a ++ "/" ++ b) = b.
Proof.
  intros Hb. unfold PyStr.basename.
  rewrite (upto_last_slash_append a b Hb).
  rewrite <- (append_assoc a "/" b).
  rewrite length_append with (a := a ++ "/") (b := b).
  replace (String.length (a ++ "/") + String.length b - String.length (a ++ "/"))%nat
    with (String.length b) by lia.
  rewrite substring_skip. apply substring_all.
Qed.

Lemma endswith_last (y : string) (c : ascii) :
  PyStr.is_slash c = false -> PyStr.endswith (y ++ String c "") "/" = false.
Proof.
  intros Hc. unfold PyStr.endswith. rewrite length_append.
  cbn [String.length].
  replace (1 <=? String.length y + 1)%nat with true
    by (symmetry; apply Nat.leb_le; lia).
  replace (String.length y + 1 - 1)%nat with (String.length y) by lia.
  rewrite substring_skip. cbn [substring].
  unfold PyStr.is_slash in Hc.
  destruct (String.eqb_spec (String c "") "/") as [E|]; [|reflexivity].
  inversion E; subst. discriminate.
Qed.

(** [join(a, b) == a + '/' + b] for a name [b] and a directory [a] that
    ends with a character that is no slash. *)
Lemma join_append (y : string) (c : ascii) (b : string) :
  PyStr.is_slash c = false -> PyStr.startswith b "/" = false ->
  PyStr.join (y ++ String c "") b = (y ++ String c "") ++ "/" ++ b.
Proof.
  intros Hc Hb. unfold PyStr.join. rewrite Hb, (endswith_last y c Hc).
  destruct y; reflexivity.
Qed.

(** [join(d, 'output')] ends in [output], whatever [d] is. *)
Lemma join_output (d : string) :
  exists y, PyStr.join d "output" = y ++ "t".
Proof.
  unfold PyStr.join. change (PyStr.startswith "output" "/") with false. cbv iota.
  destruct d as [|c d].
  - now exists "outpu".
  - destruct (PyStr.endswith (String c d) "/").
    + exists (String c d ++ "outpu"). now rewrite append_assoc.
    + exists (String c d ++ "/outpu"). now rewrite append_assoc.
Qed.

End PathFacts.

(** The two parts of the converted path. *)
Lemma converted_path_parts (unique_id input_file : string) :
  PyStr.has_slash unique_id = false ->
  PyStr.dirname (converted_path unique_id input_file)
  = PyStr.join (PyStr.dirname input_file) "output" /\
  PyStr.basename (converted_path unique_id input_file)
  = "converted_" ++ unique_id ++ ".wav".
Proof.
  intros Hid. unfold converted_path.
  destruct (join_output (PyStr.dirname input_file)) as (y & ->).
  assert (Hb : PyStr.has_slash ("converted_" ++ unique_id ++ ".wav") = false).
  { rewrite !has_slash_append, Hid. reflexivity. }
  rewrite (join_append y "t" ("converted_" ++ unique_id ++ ".wav") eq_refl eq_refl).
  split.
  - apply (dirname_append y "t" _ eq_refl Hb).
  - apply (basename_append _ _ Hb).
Qed.

(** The converted file lies in the directory [output] beside the input,
    under the name [converted_<id>.wav], when the identifier has no slash
    (a [uuid4] prefix has none): so [split_audio], which works in the
    directory of the file it is given, lists and fills that directory. *)
Theorem converted_path_location (unique_id input_file : string) :
  PyStr.has_slash unique_id = false ->
  PyStr.dirname (converted_path unique_id input_file)
  = PyStr.join (PyStr.dirname input_file) "output" /\
  PyStr.basename (converted_path unique_id input_file)
  = "converted_" ++ unique_id ++ ".wav".
Proof. apply converted_path_parts. Qed.

Lemma converted_path_location_witness :
  PyStr.dirname (converted_path "aaaaaaaa" "/up/a.mp3")
  = PyStr.join (PyStr.dirname "/up/a.mp3") "output" /\
  PyStr.basename (converted_path "aaaaaaaa" "/up/a.mp3")
  = "converted_" ++ "aaaaaaaa" ++ ".wav".
Proof. apply (converted_path_location "aaaaaaaa" "/up/a.mp3"). reflexivity. Defined.

(** ** The parser without markers *)

Section MarkerFacts.

Lemma strip_prefix_prefix (p : string) :
  forall s r, PyStr.strip_prefix p s = Some r -> String.prefix p s = true.
Proof.
  induction p as [|a p IH]; intros s r H.
  - destruct s; reflexivity.
  - destruct s as [|b s]; [discriminate|].
    cbn [PyStr.strip_prefix] in H.
    destruct (Ascii.eqb_spec a b) as [->|]; [|discriminate].
    change (String.prefix (String b p) (String b s))
      with (if ascii_dec b b then String.prefix p s else false).
    destruct (ascii_dec b b) as [_|N]; [|contradiction].
    eapply IH; eassumption.
Qed.

Lemma match_timestamp_prefix (label s g : string) (n : nat) :
  Re.match_timestamp label s = Some (g, n) -> String.prefix label s = true.
Proof.
  unfold Re.match_timestamp.
  destruct (PyStr.strip_prefix label s) as [r|] eqn:E; [|discriminate].
  intros _. eapply strip_prefix_prefix; eassumption.
Qed.

(** No occurrence of the label, no match. *)
Lemma scan_without_label (label : string) :
  forall (s : string) (skip : nat),
    PyStr.contains s label = false ->
    Re.scan (Re.match_timestamp label) skip s = [].
Proof.
  induction s as [|c s IH]; intros skip H; [reflexivity|].
  cbn [PyStr.contains] in H. apply orb_false_elim in H as [Hp Hs].
  cbn [Re.scan]. destruct skip as [|k]; [|now apply IH].
  destruct (Re.match_timestamp label (String c s)) as [[g n]|] eqn:E.
  - apply match_timestamp_prefix in E. congruence.
  - now apply IH.
Qed.

End MarkerFacts.

(** No label, no point. *)
Lemma parse_without_marker (silence_output : string) :
  PyStr.contains silence_output "silence_start: " = false \/
  PyStr.contains silence_output "silence_end: " = false ->
  parse_silence_points silence_output = inr [].
Proof.
  intros [H|H]; unfold parse_silence_points, Re.findall, start_pattern, end_pattern;
    rewrite (scan_without_label _ _ 0 H).
  - reflexivity.
  - destruct (Re.scan _ _ _); reflexivity.
Qed.

(** A detection text in which the onset label or the resumption label does
    not occur gives no silence point: the parser returns the empty list, it
    does not raise. A text with onsets only, of a file that ends in
    silence, is such a text. *)
Theorem parse_silence_points_without_marker (silence_output : string) :
  PyStr.contains silence_output "silence_start: " = false \/
  PyStr.contains silence_output "silence_end: " = false ->
  parse_silence_points silence_output = inr [].
Proof. apply parse_without_marker. Qed.

Lemma parse_silence_points_without_marker_witness :
  parse_silence_points "[silencedetect @ 0x5581] silence_start: 0.000000" = inr [].
Proof.
  apply (parse_silence_points_without_marker
           "[silencedetect @ 0x5581] silence_start: 0.000000").
  right. vm_compute. reflexivity.
Defined.

(** ** The stages, one by one *)

(** A conversion that returns. *)
Lemma convert_to_wav_success
  (ffmpeg : list string -> filesystem -> outcome * filesystem)
  (cpe_str : Z -> list string -> string)
  (unique_id input_file output_path : string) (st st' : state) :
  convert_to_wav ffmpeg cpe_str unique_id input_file st = (inr output_path, st') ->
  output_path
  = PyStr.join (PyStr.join (PyStr.dirname input_file) "output")
      ("converted_" ++ unique_id ++ ".wav") /\
  Os.exists_ st'.(fs) output_path = true /\
  st'.(calls)
  = (st.(calls) ++ [[ffmpeg_path; "-i"; input_file; "-acodec"; "pcm_s16le";
                     "-ar"; "22050"; "-ac"; "1"; output_path]])%list /\
  st'.(log)
  = (st.(log) ++ [(INFO, ("Successfully converted to WAV: " ++ output_path)%string)])%list.
Proof.
  rewrite convert_to_wav_unfold. cbv zeta.
  destruct (Os.makedirs (fs st) _) as [e|f1]; [discriminate|].
  destruct (subprocess_run_cases ffmpeg true
              (convert_command input_file (converted_path unique_id input_file))
              (mkState f1 (calls st) (log st)))
    as [(out & err & f & _ & E)|[(rc & out & err & f & _ & _ & E)|(msg & f & _ & E)]];
    rewrite E; try discriminate.
  cbn [fs ran].
  destruct (Os.exists_ f (converted_path unique_id input_file)) eqn:Ex;
    [|discriminate].
  intros H. inversion H; subst. repeat split. exact Ex.
Qed.

(** When [convert_to_wav] returns, it returns the path
    [<dir of the input>/output/converted_<id>.wav], the file exists in the
    file system it leaves, the tool has run once, asked for 16-bit PCM at
    22050 Hz on one channel, and the log has one more record, of level
    INFO. *)
Theorem convert_to_wav_returns
  (ffmpeg : list string -> filesystem -> outcome * filesystem)
  (cpe_str : Z -> list string -> string)
  (unique_id input_file output_path : string) (st st' : state) :
  convert_to_wav ffmpeg cpe_str unique_id input_file st = (inr output_path, st') ->
  output_path
  = PyStr.join (PyStr.join (PyStr.dirname input_file) "output")
      ("converted_" ++ unique_id ++ ".wav") /\
  Os.exists_ st'.(fs) output_path = true /\
  st'.(calls)
  = (st.(calls) ++ [[ffmpeg_path; "-i"; input_file; "-acodec"; "pcm_s16le";
                     "-ar"; "22050"; "-ac"; "1"; output_path]])%list /\
  st'.(log)
  = (st.(log) ++ [(INFO, ("Successfully converted to WAV: " ++ output_path)%string)])%list.
Proof. apply convert_to_wav_success. Qed.

Lemma convert_to_wav_returns_witness :
  let st' := snd (convert_to_wav (Demo.tool Demo.never "") Demo.cpe_str
                    "aaaaaaaa" "/up/a.mp3" (Demo.fresh Demo.uploads)) in
  "/up/output/converted_aaaaaaaa.wav"
  = PyStr.join (PyStr.join (PyStr.dirname "/up/a.mp3") "output")
      ("converted_" ++ "aaaaaaaa" ++ ".wav") /\
  Os.exists_ st'.(fs) "/up/output/converted_aaaaaaaa.wav" = true /\
  st'.(calls)
  = ((Demo.fresh Demo.uploads).(calls)
     ++ [[ffmpeg_path; "-i"; "/up/a.mp3"; "-acodec"; "pcm_s16le";
          "-ar"; "22050"; "-ac"; "1"; "/up/output/converted_aaaaaaaa.wav"]])%list /\
  st'.(log)
  = ((Demo.fresh Demo.uploads).(log)
     ++ [(INFO, ("Successfully converted to WAV: "
                 ++ "/up/output/converted_aaaaaaaa.wav")%string)])%list.
Proof.
  apply (convert_to_wav_returns (Demo.tool Demo.never "") Demo.cpe_str
           "aaaaaaaa" "/up/a.mp3" "/up/output/converted_aaaaaaaa.wav"
           (Demo.fresh Demo.uploads)).
  vm_compute. reflexivity.
Defined.

(** [detect_silence] runs the tool once, with the filter
    [silencedetect=noise=-37dB:d=0.5] and the null output. When the tool
    exits with 0 the value is the text of its error stream, not of its
    output stream, and nothing is logged; when it exits with another code
    the text is logged and raised under the label of the detection. The
    file system is the one the tool leaves. *)
Theorem detect_silence_outcome
  (ffmpeg : list string -> filesystem -> outcome * filesystem)
  (wav_file : string) (st : state)
  (rc : Z) (out err : string) (f : filesystem) :
  let cmd := [ffmpeg_path; "-i"; wav_file; "-af";
              "silencedetect=noise=-37dB:d=0.5"; "-f"; "null"; "-"] in
  ffmpeg cmd st.(fs) = (Exited rc out err, f) ->
  detect_silence ffmpeg wav_file st
  = if (rc =? 0)%Z
    then (inr err, mkState f (st.(calls) ++ [cmd])%list st.(log))
    else (inl (PyException ("Silence detection failed: " ++ err)),
          mkState f (st.(calls) ++ [cmd])%list
            (st.(log) ++ [(ERROR, ("Silence detection error: " ++ err)%string)])%list).
Proof.
  intros cmd Ht. rewrite detect_silence_unfold.
  change (silence_command wav_file) with cmd.
  unfold subprocess_run. rewrite Ht.
  destruct (rc =? 0)%Z; reflexivity.
Qed.

Lemma detect_silence_outcome_witness :
  detect_silence (Demo.tool Demo.never Scenario.text)
    "/up/output/converted_aaaaaaaa.wav" (Demo.fresh Demo.after_first_run)
  = (inr Scenario.text,
     mkState Demo.after_first_run
       [[ffmpeg_path; "-i"; "/up/output/converted_aaaaaaaa.wav"; "-af";
         "silencedetect=noise=-37dB:d=0.5"; "-f"; "null"; "-"]] []).
Proof.
  apply (detect_silence_outcome (Demo.tool Demo.never Scenario.text)
           "/up/output/converted_aaaaaaaa.wav" (Demo.fresh Demo.after_first_run)
           0%Z "" Scenario.text Demo.after_first_run).
  reflexivity.
Defined.

(** When the directory of the file cannot be listed, [split_audio] raises
    the error of the operating system as it is: nothing is created, the
    tool does not run and nothing is logged. A file name with no directory
    part is such a case, its directory being the empty path. *)
Theorem split_audio_unlisted_directory
  (ffmpeg : list string -> filesystem -> outcome * filesystem)
  (str_float : PyFloat.float -> string) (cpe_str : Z -> list string -> string)
  (unique_id wav_file : string) (silence_points : option (list point))
  (st : state) (e : exn) :
  Os.listdir st.(fs) (PyStr.dirname wav_file) = inl e ->
  split_audio ffmpeg str_float cpe_str unique_id wav_file silence_points st
  = (inl e, st) /\
  is_oserror e.
Proof.
  intros H. rewrite split_audio_unfold, H. split; [reflexivity|].
  eapply listdir_raises; eassumption.
Qed.

Lemma split_audio_unlisted_directory_witness :
  split_audio (Demo.tool Demo.never "") Demo.str_float Demo.cpe_str
    "dddddddd" "converted_aaaaaaaa.wav" None (Demo.fresh Demo.after_first_run)
  = (inl (Os.enoent ""), Demo.fresh Demo.after_first_run) /\
  is_oserror (Os.enoent "").
Proof.
  apply (split_audio_unlisted_directory (Demo.tool Demo.never "") Demo.str_float
           Demo.cpe_str "dddddddd" "converted_aaaaaaaa.wav" None
           (Demo.fresh Demo.after_first_run)).
  vm_compute. reflexivity.
Defined.

(** The fixed-length path fails as the loop does: when the tool exits with
    a code other than 0, [split_audio] logs one record of level ERROR and
    raises [Exception] under the label of the split, with the text of the
    [CalledProcessError]; the directory it made stays. *)
Theorem split_audio_fallback_raises
  (ffmpeg : list string -> filesystem -> outcome * filesystem)
  (str_float : PyFloat.float -> string) (cpe_str : Z -> list string -> string)
  (unique_id wav_file : string) (silence_points : option (list point))
  (st : state) (listing : list string) (f1 f2 : filesystem)
  (rc : Z) (out err : string) :
  falsy silence_points = true ->
  Os.listdir st.(fs) (PyStr.dirname wav_file) = inr listing ->
  Os.makedirs st.(fs) (output_dir_of listing unique_id wav_file) = inr f1 ->
  ffmpeg (fixed_command wav_file (output_dir_of listing unique_id wav_file)) f1
  = (Exited rc out err, f2) ->
  rc <> 0%Z ->
  let cmd := fixed_command wav_file (output_dir_of listing unique_id wav_file) in
  split_audio ffmpeg str_float cpe_str unique_id wav_file silence_points st
  = (inl (PyException ("Failed to split audio: " ++ cpe_str rc cmd)),
     mkState f2 (st.(calls) ++ [cmd])%list
       (st.(log) ++ [(ERROR, ("Audio splitting error: " ++ cpe_str rc cmd)%string)])%list).
Proof.
  intros Hf Hl Hm Ht Hrc cmd.
  rewrite split_audio_unfold, Hl. cbv zeta. rewrite Hm, Hf.
  unfold subprocess_run. cbn [fs calls log]. fold cmd. fold cmd in Ht. rewrite Ht.
  destruct (Z.eqb_spec rc 0) as [->|_]; [contradiction|reflexivity].
Qed.

Lemma split_audio_fallback_raises_witness :
  let tool := Demo.tool (Demo.on_output "segment_%03d.wav") "" in
  let wav := "/up/output/converted_aaaaaaaa.wav" in
  let cmd := fixed_command wav
               (output_dir_of ["converted_aaaaaaaa.wav"; "01_segments_bbbbbbbb"]
                  "dddddddd" wav) in
  split_audio tool Demo.str_float Demo.cpe_str "dddddddd" wav (Some [])
    (Demo.fresh Demo.after_first_run)
  = (inl (PyException ("Failed to split audio: " ++ Demo.cpe_str 1 cmd)),
     mkState Demo.second_folder_made
       ((Demo.fresh Demo.after_first_run).(calls) ++ [cmd])%list
       ((Demo.fresh Demo.after_first_run).(log)
        ++ [(ERROR, ("Audio splitting error: " ++ Demo.cpe_str 1 cmd)%string)])%list).
Proof.
  apply (split_audio_fallback_raises
           (Demo.tool (Demo.on_output "segment_%03d.wav") "")
           Demo.str_float Demo.cpe_str "dddddddd"
           "/up/output/converted_aaaaaaaa.wav" (Some [])
           (Demo.fresh Demo.after_first_run)
           ["converted_aaaaaaaa.wav"; "01_segments_bbbbbbbb"]
           Demo.second_folder_made Demo.second_folder_made 1%Z ""
           "Conversion failed!");
    try (vm_compute; reflexivity).
  discriminate.
Defined.

(** ** The pipeline, end to end *)

Section PipelineRuns.

Variable ffmpeg : list string -> filesystem -> outcome * filesystem.
Variable str_float : PyFloat.float -> string.
Variable cpe_str : Z -> list string -> string.

(** A detection that returns has logged nothing. *)
Lemma detect_silence_success (wav_file out : string) (st st' : state) :
  detect_silence ffmpeg wav_file st = (inr out, st') ->
  st'.(calls) = (st.(calls) ++ [silence_command wav_file])%list /\
  st'.(log) = st.(log).
Proof.
  rewrite detect_silence_unfold.
  destruct (subprocess_run_cases ffmpeg true (silence_command wav_file) st)
    as [(o & err & f & _ & E)|[(rc & o & err & f & _ & _ & E)|(msg & f & _ & E)]];
    rewrite E; intros H; inversion H; subst. split; reflexivity.
Qed.

(** The one command of the fixed-length path, however it ends. *)
Lemma split_audio_falsy_calls (unique_id wav_file : string)
  (silence_points : option (list point)) (st : state)
  (listing : list string) (f1 : filesystem) :
  falsy silence_points = true ->
  Os.listdir st.(fs) (PyStr.dirname wav_file) = inr listing ->
  Os.makedirs st.(fs) (output_dir_of listing unique_id wav_file) = inr f1 ->
  (snd (split_audio ffmpeg str_float cpe_str unique_id wav_file
          silence_points st)).(calls)
  = (st.(calls)
     ++ [fixed_command wav_file (output_dir_of listing unique_id wav_file)])%list.
Proof.
  intros Hf Hl Hm. rewrite split_audio_unfold, Hl. cbv zeta. rewrite Hm, Hf.
  unfold subprocess_run. cbn [fs calls log].
  destruct (ffmpeg _ f1) as [[rc out err|msg] f2].
  - destruct (rc =? 0)%Z; [|reflexivity].
    cbn [fs]. destruct (Os.listdir f2 _); reflexivity.
  - reflexivity.
Qed.

End PipelineRuns.



(** When the detection text has no onset label or no resumption label,
    the pipeline takes the fixed-length path: once the conversion and the
    detection have returned and the folder is made, the third and last
    command of the run is the segment command, whatever the outcome of the
    split. *)
Theorem process_audio_without_marker
  (ffmpeg : list string -> filesystem -> outcome * filesystem)
  (str_float : PyFloat.float -> string) (cpe_str : Z -> list string -> string)
  (id_wav id_dir input_file wav_file silence_output : string)
  (st st1 st2 : state) (listing : list string) (f1 : filesystem) :
  convert_to_wav ffmpeg cpe_str id_wav input_file st = (inr wav_file, st1) ->
  detect_silence ffmpeg wav_file st1 = (inr silence_output, st2) ->
  PyStr.contains silence_output "silence_start: " = false \/
  PyStr.contains silence_output "silence_end: " = false ->
  Os.listdir st2.(fs) (PyStr.dirname wav_file) = inr listing ->
  Os.makedirs st2.(fs) (output_dir_of listing id_dir wav_file) = inr f1 ->
  (snd (process_audio ffmpeg str_float cpe_str id_wav id_dir input_file st)).(calls)
  = (st.(calls)
     ++ [convert_command input_file wav_file;
         silence_command wav_file;
         fixed_command wav_file (output_dir_of listing id_dir wav_file)])%list.
Proof.
  intros Ec Ed Hm Hl Hd.
  rewrite process_audio_unfold. cbv zeta. rewrite Ec, Ed.
  rewrite (parse_without_marker silence_output Hm).
  pose proof (split_audio_falsy_calls ffmpeg str_float cpe_str id_dir wav_file
                (Some []) st2 listing f1 eq_refl Hl Hd) as Hs.
  apply convert_to_wav_success in Ec as (Ew & _ & Hc1 & _).
  apply detect_silence_success in Ed as [Hc2 _].
  assert (E : forall r : (exn + list string) * state,
             calls (snd r) = calls (snd (
               match r with
               | (inl e, st3) =>
                   (inl e, logged st3 ERROR
                             ("Audio processing failed: " ++ str_exn cpe_str e))
               | (inr segments, st3) =>
                   (inr segments,
                    logged st3 INFO
                      ("Generated "
                       ++ PyStr.str_int (Z.of_nat (length segments))
                       ++ " audio segments"))
               end : (exn + list string) * state)))
    by (intros [[e|segs] st3]; reflexivity).
  rewrite <- E, Hs, Hc2, Hc1.
  rewrite <- !app_assoc. reflexivity.
Qed.

Lemma process_audio_without_marker_witness :
  let wav := "/up/output/converted_aaaaaaaa.wav" in
  (snd (process_audio (Demo.tool Demo.never "silence_start: 0.000000")
          Demo.str_float Demo.cpe_str "aaaaaaaa" "bbbbbbbb" "/up/a.mp3"
          (Demo.fresh Demo.uploads))).(calls)
  = ((Demo.fresh Demo.uploads).(calls)
     ++ [convert_command "/up/a.mp3" wav;
         silence_command wav;
         fixed_command wav
           (output_dir_of ["converted_aaaaaaaa.wav"] "bbbbbbbb" wav)])%list.
Proof.
  set (tool := Demo.tool Demo.never "silence_start: 0.000000").
  set (st1 := snd (convert_to_wav tool Demo.cpe_str "aaaaaaaa" "/up/a.mp3"
                     (Demo.fresh Demo.uploads))).
  set (st2 := snd (detect_silence tool "/up/output/converted_aaaaaaaa.wav" st1)).
  apply (process_audio_without_marker tool Demo.str_float Demo.cpe_str
           "aaaaaaaa" "bbbbbbbb" "/up/a.mp3" "/up/output/converted_aaaaaaaa.wav"
           "silence_start: 0.000000" (Demo.fresh Demo.uploads) st1 st2
           ["converted_aaaaaaaa.wav"]
           (match Os.makedirs st2.(fs) "/up/output/01_segments_bbbbbbbb" with
            | inr f => f
            | inl _ => st2.(fs)
            end)).
  - vm_compute. reflexivity.
  - vm_compute. reflexivity.
  - right. vm_compute. reflexivity.
  - vm_compute. reflexivity.
  - vm_compute. reflexivity.
Defined.

(** ** The upload handler *)

Section HandlerFacts.

Variable ffmpeg : list string -> filesystem -> outcome * filesystem.
Variable str_float : PyFloat.float -> string.
Variable cpe_str : Z -> list string -> string.
Variable secure_filename : string -> string.
Variable UPLOAD_FOLDER : string.

Local Abbreviation handle :=
  (upload_file ffmpeg str_float cpe_str secure_filename UPLOAD_FOLDER).
Local Abbreviation process := (process_audio ffmpeg str_float cpe_str).

(** The body of the handler for a file it accepts. *)
Lemma upload_file_accepted (unique_id id_wav id_dir : string)
  (file : FileStorage) (st : state) :
  file.(filename) <> EmptyString ->
  PyStr.endswith (lower file.(filename)) ".mp3" = true ->
  let name := unique_id ++ "_" ++ secure_filename file.(filename) in
  let filepath := PyStr.join UPLOAD_FOLDER name in
  let failed (e : exn) := Redirect ("Error processing file: " ++ str_exn cpe_str e) in
  handle unique_id id_wav id_dir (POST (Some file)) st
  = match write_file st.(fs) filepath with
    | inl e => (inr (failed e), st)
    | inr f1 =>
        match process id_wav id_dir filepath (mkState f1 st.(calls) st.(log)) with
        | (inl e, st2) => (inr (failed e), st2)
        | (inr output_files, st2) =>
            (inr (Template "result.html" (List.map PyStr.basename output_files)
                    (Some name)), st2)
        end
    end.
Proof.
  intros Hn He name filepath failed. unfold upload_file.
  destruct (String.eqb_spec (filename file) "") as [E|_]; [contradiction|].
  rewrite He. unfold try_except, bind, file_save. fold name. fold filepath.
  destruct (write_file (fs st) filepath) as [e|f1]; [reflexivity|].
  destruct (process id_wav id_dir filepath _) as [[e|names] st2]; reflexivity.
Qed.

Lemma lower_append (a b : string) : lower (a ++ b) = lower a ++ lower b.
Proof.
  induction a as [|c a IH]; [reflexivity|].
  rewrite append_cons. cbn [lower]. now rewrite IH, append_cons.
Qed.

Lemma basename_name (n : string) :
  PyStr.has_slash n = false -> PyStr.basename n = n.
Proof.
  intros H. unfold PyStr.basename. rewrite (upto_last_slash_none n H).
  cbn [String.length]. rewrite Nat.sub_0_r. apply substring_all.
Qed.

Lemma map_basename_names (names : list string) :
  Forall (fun n => PyStr.has_slash n = false) names ->
  List.map PyStr.basename names = names.
Proof.
  induction 1 as [|n names Hn _ IH]; [reflexivity|].
  cbn [List.map]. now rewrite (basename_name n Hn), IH.
Qed.

End HandlerFacts.


(** A file whose name, in lower case, does not end in [.mp3] is turned
    away with a message, and nothing happens: no file is written, the tool
    does not run, the state is the one before the request. *)
Theorem upload_file_rejects
  (ffmpeg : list string -> filesystem -> outcome * filesystem)
  (str_float : PyFloat.float -> string) (cpe_str : Z -> list string -> string)
  (secure_filename : string -> string) (UPLOAD_FOLDER : string)
  (unique_id id_wav id_dir : string) (file : FileStorage) (st : state) :
  PyStr.endswith (lower file.(filename)) ".mp3" = false ->
  upload_file ffmpeg str_float cpe_str secure_filename UPLOAD_FOLDER
    unique_id id_wav id_dir (POST (Some file)) st
  = (inr (Redirect (if String.eqb file.(filename) ""
                    then "No selected file"
                    else "Please upload an MP3 file")), st).
Proof.
  intros He. unfold upload_file.
  destruct (String.eqb (filename file) ""); [reflexivity|].
  rewrite He. reflexivity.
Qed.

Lemma upload_file_rejects_witness :
  upload_file (Demo.tool Demo.never Scenario.text) Demo.str_float Demo.cpe_str
    DemoUpload.secure_filename "/up" "cccccccc" "aaaaaaaa" "bbbbbbbb"
    (POST (Some DemoUpload.notes)) (Demo.fresh Demo.uploads)
  = (inr (Redirect (if String.eqb DemoUpload.notes.(filename) ""
                    then "No selected file"
                    else "Please upload an MP3 file")),
     Demo.fresh Demo.uploads).
Proof.
  apply (upload_file_rejects (Demo.tool Demo.never Scenario.text) Demo.str_float
           Demo.cpe_str DemoUpload.secure_filename "/up" "cccccccc" "aaaaaaaa"
           "bbbbbbbb" DemoUpload.notes (Demo.fresh Demo.uploads)).
  vm_compute. reflexivity.
Defined.

(** The test of the extension does not look at the case: a name that ends
    in [.mp3], [.MP3], [.Mp3] or any other casing passes it. *)
Theorem mp3_extension_any_case (stem ext : string) :
  lower ext = ".mp3" ->
  PyStr.endswith (lower (stem ++ ext)) ".mp3" = true.
Proof.
  intros H. rewrite lower_append, H. apply endswith_append.
Qed.

Lemma mp3_extension_any_case_witness :
  PyStr.endswith (lower ("My Song" ++ ".MP3")) ".mp3" = true.
Proof. apply (mp3_extension_any_case "My Song" ".MP3"). reflexivity. Defined.

(** When saving or processing an accepted file raises, the handler turns
    the exception into the message [Error processing file: <text>] and a
    redirect; the state is the one the failing step left, the uploaded
    file and whatever the stages wrote are not removed. *)
Theorem upload_file_reports_errors
  (ffmpeg : list string -> filesystem -> outcome * filesystem)
  (str_float : PyFloat.float -> string) (cpe_str : Z -> list string -> string)
  (secure_filename : string -> string) (UPLOAD_FOLDER : string)
  (unique_id id_wav id_dir : string) (file : FileStorage)
  (st st2 : state) (f1 : filesystem) (e : exn) :
  file.(filename) <> EmptyString ->
  PyStr.endswith (lower file.(filename)) ".mp3" = true ->
  let filepath := PyStr.join UPLOAD_FOLDER
                    (unique_id ++ "_" ++ secure_filename file.(filename)) in
  write_file st.(fs) filepath = inr f1 ->
  process_audio ffmpeg str_float cpe_str id_wav id_dir filepath
    (mkState f1 st.(calls) st.(log)) = (inl e, st2) ->
  upload_file ffmpeg str_float cpe_str secure_filename UPLOAD_FOLDER
    unique_id id_wav id_dir (POST (Some file)) st
  = (inr (Redirect ("Error processing file: " ++ str_exn cpe_str e)), st2).
Proof.
  intros Hn He filepath Hw Hp.
  rewrite (upload_file_accepted _ _ _ _ _ _ _ _ _ _ Hn He). cbv zeta.
  fold filepath. rewrite Hw, Hp. reflexivity.
Qed.

Lemma upload_file_reports_errors_witness :
  let filepath := PyStr.join "/up"
                    ("cccccccc" ++ "_"
                     ++ DemoUpload.secure_filename DemoUpload.song.(filename)) in
  let e := PyException "WAV conversion failed: Output file not created" in
  upload_file Demo.idle_tool Demo.str_float Demo.cpe_str
    DemoUpload.secure_filename "/up" "cccccccc" "aaaaaaaa" "bbbbbbbb"
    (POST (Some DemoUpload.song)) (Demo.fresh Demo.uploads)
  = (inr (Redirect ("Error processing file: " ++ str_exn Demo.cpe_str e)),
     snd (upload_file Demo.idle_tool Demo.str_float Demo.cpe_str
            DemoUpload.secure_filename "/up" "cccccccc" "aaaaaaaa" "bbbbbbbb"
            (POST (Some DemoUpload.song)) (Demo.fresh Demo.uploads))).
Proof.
  apply (upload_file_reports_errors Demo.idle_tool Demo.str_float Demo.cpe_str
           DemoUpload.secure_filename "/up" "cccccccc" "aaaaaaaa" "bbbbbbbb"
           DemoUpload.song (Demo.fresh Demo.uploads) _
           (<["/up" := ["a.mp3"; "cccccccc_My_Song.MP3"]]> Demo.uploads));
    try (vm_compute; reflexivity).
  discriminate.
Defined.

(** When the pipeline returns for an accepted file, the handler renders
    [result.html] with the base names of the segment names and the name the
    upload was saved under, [<id>_<secure name>]; segment names without a
    slash, as the entries of a directory are, are passed on unchanged. *)
Theorem upload_file_renders_segments
  (ffmpeg : list string -> filesystem -> outcome * filesystem)
  (str_float : PyFloat.float -> string) (cpe_str : Z -> list string -> string)
  (secure_filename : string -> string) (UPLOAD_FOLDER : string)
  (unique_id id_wav id_dir : string) (file : FileStorage)
  (st st2 : state) (f1 : filesystem) (names : list string) :
  file.(filename) <> EmptyString ->
  PyStr.endswith (lower file.(filename)) ".mp3" = true ->
  let name := unique_id ++ "_" ++ secure_filename file.(filename) in
  write_file st.(fs) (PyStr.join UPLOAD_FOLDER name) = inr f1 ->
  process_audio ffmpeg str_float cpe_str id_wav id_dir
    (PyStr.join UPLOAD_FOLDER name) (mkState f1 st.(calls) st.(log))
  = (inr names, st2) ->
  Forall (fun n => PyStr.has_slash n = false) names ->
  upload_file ffmpeg str_float cpe_str secure_filename UPLOAD_FOLDER
    unique_id id_wav id_dir (POST (Some file)) st
  = (inr (Template "result.html" names (Some name)), st2).
Proof.
  intros Hn He name Hw Hp Hs.
  rewrite (upload_file_accepted _ _ _ _ _ _ _ _ _ _ Hn He). cbv zeta.
  fold name. rewrite Hw, Hp. now rewrite (map_basename_names names Hs).
Qed.

Lemma upload_file_renders_segments_witness :
  let name := "cccccccc" ++ "_"
              ++ DemoUpload.secure_filename DemoUpload.song.(filename) in
  upload_file (Demo.tool Demo.never Scenario.text) Demo.str_float Demo.cpe_str
    DemoUpload.secure_filename "/up" "cccccccc" "aaaaaaaa" "bbbbbbbb"
    (POST (Some DemoUpload.song)) (Demo.fresh Demo.uploads)
  = (inr (Template "result.html" ["segment_001.wav"] (Some name)),
     snd (upload_file (Demo.tool Demo.never Scenario.text) Demo.str_float
            Demo.cpe_str DemoUpload.secure_filename "/up" "cccccccc"
            "aaaaaaaa" "bbbbbbbb" (POST (Some DemoUpload.song))
            (Demo.fresh Demo.uploads))).
Proof.
  apply (upload_file_renders_segments (Demo.tool Demo.never Scenario.text)
           Demo.str_float Demo.cpe_str DemoUpload.secure_filename "/up"
           "cccccccc" "aaaaaaaa" "bbbbbbbb" DemoUpload.song
           (Demo.fresh Demo.uploads) _
           (<["/up" := ["a.mp3"; "cccccccc_My_Song.MP3"]]> Demo.uploads));
    try (vm_compute; reflexivity).
  - discriminate.
  - repeat constructor.
Defined.
